(** * Home Assistant adapters: HomeKit switch bridge and Tradfri lights

    A shallow embedding of

    - [homeassistant/components/homekit/type_switches.py] (class [Switch]),
    - [homeassistant/components/light/tradfri.py] ([normalize_xy],
      [denormalize_xy], classes [TradfriGroup] and [TradfriLight]),

    together with the properties of these adapters.

    Python values are embedded as a small universe of dynamically typed
    values; Python floats are IEEE binary64 numbers, embedded as Rocq's
    primitive floats, so that the arithmetic of the colour conversions is
    the arithmetic of the program.  Dictionaries are finite maps with string
    keys.  Code that issues device commands runs in a writer/exception
    monad whose log is the sequence of commands handed to the gateway. *)

From Stdlib Require Import ZArith Floats List.
From stdpp Require Import gmap strings list.
Import ListNotations.

Set Warnings "-inexact-float,-register-all".

#[local] Open Scope Z_scope.

(** ** Python values and exceptions *)

(** The values that reach the adapters: [None], booleans, integers,
    floats and tuples. *)
Inductive value : Type :=
  | VNone
  | VBool (b : bool)
  | VInt (n : Z)
  | VFloat (f : float)
  | VTuple (items : list value).

(** The exception classes that the modelled code can meet.  [PytradfriError]
    stands for the gateway client's error class and its subclasses;
    [OtherError] for any exception class not named here. *)
Inductive exn : Type :=
  | TypeError
  | ValueError
  | OverflowError
  | IndexError
  | KeyError
  | PytradfriError
  | OtherError (name : string).

(** [NameError] is raised by the use of a name that is not bound,
    [AttributeError] by the read of an attribute that the object does not
    have. *)
Definition NameError : exn := OtherError "NameError".
Definition AttributeError : exn := OtherError "AttributeError".

(** The result of evaluating an expression or running a call. *)
Inductive outcome (A : Type) : Type :=
  | Returns (a : A)
  | Raises (e : exn).
Arguments Returns {A} a.
Arguments Raises {A} e.

Definition is_Returns {A} (o : outcome A) : Prop :=
  match o with Returns _ => True | Raises _ => False end.

#[global] Instance outcome_ret : MRet outcome := fun A a => Returns a.
#[global] Instance outcome_bind : MBind outcome := fun A B f o =>
  match o with
  | Returns a => f a
  | Raises e => Raises e
  end.
#[global] Instance outcome_fmap : FMap outcome := fun A B f o =>
  match o with
  | Returns a => Returns (f a)
  | Raises e => Raises e
  end.

(** [x is not None] *)
Definition is_not_None (v : value) : bool :=
  match v with VNone => false | _ => true end.

(** [d.get(k)]: the value under [k], or [None]. *)
Definition dict_get (d : gmap string value) (k : string) : value :=
  default VNone (d !! k).

(** ** Numbers *)

(** [float(n)] for an integer [n]: the nearest binary64 number, ties to
    even; integers beyond the binary64 range raise [OverflowError]. *)
Definition float_of_int (n : Z) : outcome float :=
  let f := SF2Prim (binary_normalize prec emax n 0 false) in
  if is_infinity f then Raises OverflowError else Returns f.

(** [int(f)] for a float [f]: truncation towards zero; [nan] raises
    [ValueError] and the infinities raise [OverflowError]. *)
Definition int_of_float (f : float) : outcome Z :=
  match Prim2SF f with
  | S754_nan => Raises ValueError
  | S754_infinity _ => Raises OverflowError
  | S754_zero _ => Returns 0
  | S754_finite s m e =>
      let a := if 0 <=? e then Z.shiftl (Z.pos m) e
               else Z.shiftr (Z.pos m) (- e) in
      Returns (if s then - a else a)
  end.

(** [int(v)] *)
Definition py_int (v : value) : outcome Z :=
  match v with
  | VInt n => Returns n
  | VBool b => Returns (if b then 1 else 0)
  | VFloat f => int_of_float f
  | VNone | VTuple _ => Raises TypeError
  end.

(** [v == 255] *)
Definition eq_255 (v : value) : bool :=
  match v with
  | VInt n => n =? 255
  | VFloat f => (f =? 255)%float
  | VBool _ | VNone | VTuple _ => false
  end.

(** [n / d] for integers [n] and [d <> 0]: the binary64 number nearest to
    the exact quotient. *)
Definition int_truediv (n : Z) (d : positive) : outcome float :=
  let sf (z : Z) :=
    match z with
    | Z0 => S754_zero false
    | Zpos p => S754_finite false p 0
    | Zneg p => S754_finite true p 0
    end in
  let f := SF2Prim (SFdiv prec emax (sf n) (sf (Zpos d))) in
  if is_infinity f then Raises OverflowError else Returns f.

(** [v * k] for an integer constant [k]; on a tuple this is repetition. *)
Definition py_mul_int (v : value) (k : Z) : outcome value :=
  match v with
  | VBool b => Returns (VInt ((if b then 1 else 0) * k))
  | VInt n => Returns (VInt (n * k))
  | VFloat f => g ← float_of_int k; Returns (VFloat (f * g)%float)
  | VTuple l => Returns (VTuple (concat (replicate (Z.to_nat k) l)))
  | VNone => Raises TypeError
  end.

(** [v / d] for a positive integer constant [d] (true division). *)
Definition py_truediv_int (v : value) (d : positive) : outcome value :=
  match v with
  | VBool b => VFloat <$> int_truediv (if b then 1 else 0) d
  | VInt n => VFloat <$> int_truediv n d
  | VFloat f => g ← float_of_int (Zpos d); Returns (VFloat (f / g)%float)
  | VNone | VTuple _ => Raises TypeError
  end.

(** [v + c] and [v - c] for a float constant [c]. *)
Definition py_float_op (op : float -> float -> float)
    (v : value) (c : float) : outcome value :=
  match v with
  | VBool b =>
      f ← float_of_int (if b then 1 else 0); Returns (VFloat (op f c))
  | VInt n => f ← float_of_int n; Returns (VFloat (op f c))
  | VFloat f => Returns (VFloat (op f c))
  | VNone | VTuple _ => Raises TypeError
  end.
Definition py_add_float := py_float_op PrimFloat.add.
Definition py_sub_float := py_float_op PrimFloat.sub.

(** ** Tuples and dictionaries *)

(** Unpacking of [v] into positional arguments (the star of a call). *)
Definition unpack (v : value) : outcome (list value) :=
  match v with
  | VTuple l => Returns l
  | _ => Raises TypeError
  end.

(** [v[i]] for a constant index [i]. *)
Definition index (v : value) (i : nat) : outcome value :=
  match v with
  | VTuple l =>
      match l !! i with Some x => Returns x | None => Raises IndexError end
  | _ => Raises TypeError
  end.

(** [d[k]] *)
Definition subscript (d : gmap string value) (k : string) : outcome value :=
  match d !! k with Some v => Returns v | None => Raises KeyError end.

(** * The Tradfri light platform ([light/tradfri.py]) *)

(** ** Option names *)

(** Modelled from the spec: the names of the keyword options of [turn_on]
    are constants of the host's light component, which is outside the given
    sources.  They are the option names of the host's entity contract:
    brightness, colour temperature, HS colour, transition duration, XY
    colour, RGB colour.  A caller passes its options under these names. *)
Definition ATTR_BRIGHTNESS : string := "brightness".
Definition ATTR_COLOR_TEMP : string := "color_temp".
Definition ATTR_HS_COLOR : string := "hs_color".
Definition ATTR_TRANSITION : string := "transition".
Definition ATTR_XY_COLOR : string := "xy_color".
Definition ATTR_RGB_COLOR : string := "rgb_color".

Definition ATTR_TRANSITION_TIME : string := "transition_time".

(** The option names that are bound in the module [tradfri.py]: the four
    that its [import] statement lists, and [ATTR_TRANSITION_TIME], which it
    defines.  The module imports neither [ATTR_XY_COLOR] nor
    [ATTR_RGB_COLOR], and assigns neither. *)
Definition module_names : gmap string string :=
  <["ATTR_BRIGHTNESS" := ATTR_BRIGHTNESS]>
    (<["ATTR_COLOR_TEMP" := ATTR_COLOR_TEMP]>
       (<["ATTR_HS_COLOR" := ATTR_HS_COLOR]>
          (<["ATTR_TRANSITION" := ATTR_TRANSITION]>
             (<["ATTR_TRANSITION_TIME" := ATTR_TRANSITION_TIME]> ∅)))).

(** The evaluation of a global name in the module: its value, or
    [NameError] for a name that the module does not bind. *)
Definition global_name (name : string) : outcome string :=
  match module_names !! name with
  | Some option_name => Returns option_name
  | None => Raises NameError
  end.

(** ** Device commands *)

(** The methods of a device's or group's control object that build
    commands. *)
Inductive method : Set :=
  | set_state
  | set_dimmer
  | set_xy_color
  | set_rgb_color
  | set_kelvin_color
  | set_color_temp.

(** A command object: the method that built it, with its positional and
    keyword arguments. *)
Record command : Type := Call {
  meth : method;
  args : list value;
  kwargs_of : gmap string value
}.

(** A coroutine of the adapter: the commands it has handed to the gateway,
    in order, and how it ended. *)
Definition M (A : Type) : Type := (list command * outcome A)%type.

#[global] Instance M_ret : MRet M := fun A a => ([], Returns a).
#[global] Instance M_bind : MBind M := fun A B f m =>
  match m with
  | (l, Returns a) => let '(l', r) := f a in (l ++ l', r)
  | (l, Raises e) => (l, Raises e)
  end.

(** Evaluation of an expression inside a coroutine. *)
Definition eval {A} (o : outcome A) : M A := ([], o).

(** Modelled from the spec: [await self._api(cmd)] hands [cmd] to the
    injected command-execution function of the gateway client; the commands
    of a call are awaited one after the other. *)
Definition api (cmd : command) : M unit := ([cmd], Returns tt).

(** ** Colour conversions *)

(** [normalize_xy(argx, argy, brightness=None)] *)
Definition normalize_xy (argx argy brightness : value) : outcome (Z * Z) :=
  x ← py_mul_int argx 65535; x ← py_add_float x 0.56; x ← py_int x;
  y ← py_mul_int argy 65535; y ← py_add_float y 0.56; y ← py_int y;
  Returns (x, y).

(** [denormalize_xy(argx, argy, brightness=None)] *)
Definition denormalize_xy (argx argy brightness : value)
    : outcome (value * value) :=
  x ← py_truediv_int argx 65535; x ← py_sub_float x 0.56;
  y ← py_truediv_int argy 65535; y ← py_sub_float y 0.56;
  Returns (x, y).

(** A call of one of the two conversions on an unpacked argument tuple:
    two or three positional arguments are accepted. *)
Definition call_xy {A} (f : value -> value -> value -> outcome A)
    (args : list value) : outcome A :=
  match args with
  | [argx; argy] => f argx argy VNone
  | [argx; argy; brightness] => f argx argy brightness
  | _ => Raises TypeError
  end.

(** The interface of the host's colour utilities ([homeassistant.util.color],
    outside the given sources), called with positional arguments. *)
Class ColorUtil : Type := {
  color_hs_to_RGB : list value -> outcome value;
  color_temperature_mired_to_kelvin : value -> outcome value;
  color_RGB_to_xy : list value -> outcome value
}.

(** [keys = {}; if ATTR_TRANSITION in kwargs:
      keys['transition_time'] = int(kwargs[ATTR_TRANSITION]) * 10] *)
Definition transition_params (kwargs : gmap string value)
    : outcome (gmap string value) :=
  match kwargs !! ATTR_TRANSITION with
  | Some t => n ← py_int t; Returns {[ATTR_TRANSITION_TIME := VInt (n * 10)]}
  | None => Returns ∅
  end.

(** ** Observation *)

(** What [_async_start_observe] does, in order: a warning written to the
    log, a call of the handle's [observe] method, and the scheduling of the
    observation command with [hass.async_add_job]. *)
Inductive event (Cmd : Type) : Type :=
  | Warning (msg : string)
  | Observe
  | AddJob (cmd : Cmd).
Arguments Warning {Cmd} msg.
Arguments Observe {Cmd}.
Arguments AddJob {Cmd} cmd.

(** [except PytradfriError] *)
Definition is_PytradfriError (e : exn) : bool :=
  match e with PytradfriError => true | _ => false end.

(** The trace of [n] failed subscriptions in a row: each is a call of
    [observe] followed by the warning of the handler. *)
Definition retries {Cmd} (n : nat) : list (event Cmd) :=
  concat (replicate n [Observe; Warning "Observation failed, trying again"]).

(** The warning written when the call comes from the error callback. *)
Definition failed_warning {Cmd} (name : string) (exc : option exn)
    : list (event Cmd) :=
  match exc with
  | Some _ => [Warning ("Observation failed for " +:+ name)]
  | None => []
  end.

(** ** Groups *)

Module TradfriGroup.

Record t : Type := { _name : string }.

(** [async_turn_off(self, **kwargs)] *)
Definition async_turn_off (kwargs : gmap string value) : M unit :=
  api (Call set_state [VInt 0] ∅).

(** [async_turn_on(self, **kwargs)] *)
Definition async_turn_on (kwargs : gmap string value) : M unit :=
  keys ← eval (transition_params kwargs);
  match kwargs !! ATTR_BRIGHTNESS with
  | Some b =>
      let kwargs :=
        if eq_255 b then <[ATTR_BRIGHTNESS := VInt 254]> kwargs
        else kwargs in
      brightness ← eval (subscript kwargs ATTR_BRIGHTNESS);
      api (Call set_dimmer [brightness] keys)
  | None => api (Call set_state [VInt 1] ∅)
  end.

(** [_async_start_observe(self, exc=None)].  The gateway is given by
    [observed], the results of the successive calls of
    [self._group.observe]: a command, or an exception.  The result is the
    trace of the call and its outcome; the outcome is [None] when every
    listed call of [observe] has failed and the retry is still running. *)
Fixpoint _async_start_observe {Cmd} (self : t)
    (observed : list (outcome Cmd)) (exc : option exn)
    : list (event Cmd) * option (outcome unit) :=
  let failed :=
    match exc with
    | Some _ => [Warning ("Observation failed for " +:+ _name self)]
    | None => []
    end in
  match observed with
  | [] => (failed, None)
  | Returns cmd :: _ => (failed ++ [Observe; AddJob cmd], Some (Returns tt))
  | Raises err :: observed =>
      if is_PytradfriError err then
        let '(trace, result) := _async_start_observe self observed None in
        (failed ++ [Observe; Warning "Observation failed, trying again"]
           ++ trace, result)
      else (failed ++ [Observe], Some (Raises err))
  end.

End TradfriGroup.

(** ** Lights *)

Module TradfriLight.

(** The cached light data: [hex_color] is a string or [None]. *)
Record LightData : Type := { hex_color : option string }.

(** The fields of the adapter that [async_turn_on] and
    [_async_start_observe] read, among those that the class assigns. *)
Record t : Type := {
  _name : string;
  _light_data : LightData
}.

(** [self._temp_supported]: [async_turn_on] reads this attribute, and no
    statement of the class assigns it, in [__init__], in [_refresh] or
    elsewhere: the read raises [AttributeError]. *)
Definition _temp_supported (self : t) : outcome bool :=
  Raises AttributeError.

Section turn_on.
Context `{ColorUtil}.

(** The statement [yield from self._api(cmd)], which the first conditional
    of [async_turn_on] has where the rest of the module has
    [await self._api(cmd)].  Python does not accept [yield from] in the
    body of an [async def]; no meaning is fixed for it here: it is any step
    of a coroutine, and [api] is its reading as [await]. *)
Variable yield_from : command -> M unit.

(** [async_turn_off(self, **kwargs)] *)
Definition async_turn_off (self : t) (kwargs : gmap string value)
    : M unit :=
  api (Call set_state [VBool false] ∅).

(** [if brightness is not None: params.pop(ATTR_TRANSITION_TIME, None)] *)
Definition pop_transition (brightness : value)
    (params : gmap string value) : gmap string value :=
  if is_not_None brightness then delete ATTR_TRANSITION_TIME params
  else params.

(** The first conditional of [async_turn_on]: the HS colour, or else the
    colour temperature in Kelvin, for a light that reports a hex colour.
    The third test of the second branch reads [self._temp_supported]. *)
Definition first_color_command (self : t) (kwargs : gmap string value)
    : M unit :=
  match kwargs !! ATTR_HS_COLOR, hex_color (_light_data self) with
  | Some hs, Some _ =>
      hs_args ← eval (unpack hs);
      rgb ← eval (color_hs_to_RGB hs_args);
      rgb_args ← eval (unpack rgb);
      yield_from (Call set_rgb_color rgb_args ∅)
  | _, _ =>
      match kwargs !! ATTR_COLOR_TEMP, hex_color (_light_data self) with
      | Some mired, Some _ =>
          temp_supported ← eval (_temp_supported self);
          if temp_supported : bool then
            kelvin ← eval (color_temperature_mired_to_kelvin mired);
            yield_from (Call set_kelvin_color [kelvin] ∅)
          else mret tt
      | _, _ => mret tt
      end
  end.

(** The second conditional of [async_turn_on]: the XY colour, or else the
    RGB colour, or else the colour temperature.  Its first two tests
    evaluate the global names [ATTR_XY_COLOR] and [ATTR_RGB_COLOR].  The
    dictionary [params] is one object, shared with the brightness command
    that follows: the function returns it as the colour branch has left
    it. *)
Definition second_color_command (kwargs : gmap string value)
    (brightness : value) (params : gmap string value)
    : M (gmap string value) :=
  xy_color ← eval (global_name "ATTR_XY_COLOR");
  match kwargs !! xy_color with
  | Some xy =>
      let params := pop_transition brightness params in
      xy_args ← eval (unpack xy);
      nxy ← eval (call_xy normalize_xy xy_args);
      api (Call set_xy_color [VInt nxy.1; VInt nxy.2] params);;
      mret params
  | None =>
      rgb_color ← eval (global_name "ATTR_RGB_COLOR");
      match kwargs !! rgb_color with
      | Some rgb =>
          let params := pop_transition brightness params in
          rgb_args ← eval (unpack rgb);
          argxy ← eval (color_RGB_to_xy rgb_args);
          argx ← eval (index argxy 0);
          argy ← eval (index argxy 1);
          nxy ← eval (normalize_xy argx argy VNone);
          api (Call set_xy_color [VInt nxy.1; VInt nxy.2] params);;
          mret params
      | None =>
          match kwargs !! ATTR_COLOR_TEMP with
          | Some mired =>
              let params := pop_transition brightness params in
              api (Call set_color_temp [mired] params);;
              mret params
          | None => mret params
          end
      end
  end.

(** The last conditional of [async_turn_on]: the brightness, or else the
    plain switching on. *)
Definition brightness_command (brightness : value)
    (params : gmap string value) : M unit :=
  if is_not_None brightness then
    let brightness := if eq_255 brightness then VInt 254 else brightness in
    api (Call set_dimmer [brightness] params)
  else
    api (Call set_state [VBool true] ∅).

(** [async_turn_on(self, **kwargs)] *)
Definition async_turn_on (self : t) (kwargs : gmap string value) : M unit :=
  first_color_command self kwargs;;
  params ← eval (transition_params kwargs);
  let brightness := dict_get kwargs ATTR_BRIGHTNESS in
  params ← second_color_command kwargs brightness params;
  brightness_command brightness params.

End turn_on.

(** A light that reports a hex colour. *)
Definition color_light : t :=
  {| _name := "lamp";
     _light_data := {| hex_color := Some "f5faf6" |} |}.

(** [_async_start_observe(self, exc=None)], as for groups, on
    [self._light.observe]. *)
Fixpoint _async_start_observe {Cmd} (self : t)
    (observed : list (outcome Cmd)) (exc : option exn)
    : list (event Cmd) * option (outcome unit) :=
  let failed :=
    match exc with
    | Some _ => [Warning ("Observation failed for " +:+ _name self)]
    | None => []
    end in
  match observed with
  | [] => (failed, None)
  | Returns cmd :: _ => (failed ++ [Observe; AddJob cmd], Some (Returns tt))
  | Raises err :: observed =>
      if is_PytradfriError err then
        let '(trace, result) := _async_start_observe self observed None in
        (failed ++ [Observe; Warning "Observation failed, trying again"]
           ++ trace, result)
      else (failed ++ [Observe], Some (Raises err))
  end.

End TradfriLight.

(** ** Sample calls *)

(** A colour utility with fixed answers, to run the adapter on examples:
    (255, 149, 128) is the RGB colour of hue 10 and saturation 50, and
    3333 Kelvin is the colour temperature of 300 mireds. *)
Definition fixed_color_util : ColorUtil :=
  {| color_hs_to_RGB :=
       fun _ => Returns (VTuple [VInt 255; VInt 149; VInt 128]);
     color_temperature_mired_to_kelvin := fun _ => Returns (VInt 3333);
     color_RGB_to_xy := fun _ => Returns (VTuple [VFloat 0.5; VFloat 0.4]) |}.

(** [turn_on(brightness=100, xy_color=(0.3, 0.3), transition=2.0)] *)
Definition xy_brightness_transition : gmap string value :=
  <[ATTR_BRIGHTNESS := VInt 100]>
    (<[ATTR_XY_COLOR := VTuple [VFloat 0.3; VFloat 0.3]]>
       (<[ATTR_TRANSITION := VFloat 2]> ∅)).

(** [turn_on(hs_color=(10.0, 50.0), color_temp=300)] *)
Definition hs_and_color_temp : gmap string value :=
  <[ATTR_HS_COLOR := VTuple [VFloat 10; VFloat 50]]>
    (<[ATTR_COLOR_TEMP := VInt 300]> ∅).

(** [turn_on(brightness=255, transition=2.0)] *)
Definition full_brightness : gmap string value :=
  <[ATTR_BRIGHTNESS := VInt 255]> (<[ATTR_TRANSITION := VFloat 2]> ∅).

(** [turn_on(xy_color=(0.3, 0.3), rgb_color=(255, 0, 0))] *)
Definition xy_and_rgb : gmap string value :=
  <[ATTR_XY_COLOR := VTuple [VFloat 0.3; VFloat 0.3]]>
    (<[ATTR_RGB_COLOR := VTuple [VInt 255; VInt 0; VInt 0]]> ∅).

(** [turn_on(color_temp=300, xy_color=(0.3, 0.3))] *)
Definition color_temp_and_xy : gmap string value :=
  <[ATTR_COLOR_TEMP := VInt 300]>
    (<[ATTR_XY_COLOR := VTuple [VFloat 0.3; VFloat 0.3]]> ∅).

(** * The HomeKit switch accessory ([homekit/type_switches.py]) *)

(** Modelled from the spec: [STATE_ON], [SERVICE_TURN_ON],
    [SERVICE_TURN_OFF] and [ATTR_ENTITY_ID] are constants of the host
    ([homeassistant.const], outside the given sources): the state string of
    a switched-on entity, the names of the generic turn-on and turn-off
    services, and the key of the target entity id in the service data. *)
Definition STATE_ON : string := "on".
Definition SERVICE_TURN_ON : string := "turn_on".
Definition SERVICE_TURN_OFF : string := "turn_off".
Definition ATTR_ENTITY_ID : string := "entity_id".

(** The truth value of a Python value. *)
Definition truthy (v : value) : bool :=
  match v with
  | VNone => false
  | VBool b => b
  | VInt n => negb (n =? 0)
  | VFloat f => negb (f =? 0)%float
  | VTuple l => match l with [] => false | _ => true end
  end.

Module Switch.

(** A state object of the host: [state] is the state string. *)
Record State : Type := { state : string }.

(** A call [hass.services.call(domain, service, service_data)]. *)
Record service_call : Type := ServiceCall {
  domain : string;
  service : string;
  service_data : gmap string string
}.

(** The accessory's "On" characteristic: its value, and the calls of its
    programmatic setter [set_value(value, should_callback)] so far. *)
Record Characteristic : Type := {
  value_ : value;
  set_value_calls : list (value * bool)
}.

(** The accessory together with the host services it talks to:
    [services] lists the service calls made so far, oldest first. *)
Record t : Type := {
  _entity_id : string;
  _domain : string;
  flag_target_state : bool;
  char_on : Characteristic;
  services : list service_call
}.

(** [set_state(self, value)].  Debug logging is left out here and in
    [update_state]. *)
Definition set_state (self : t) (value : value) : t :=
  let service := if truthy value then SERVICE_TURN_ON else SERVICE_TURN_OFF in
  {| _entity_id := _entity_id self;
     _domain := _domain self;
     flag_target_state := true;
     char_on := char_on self;
     services :=
       services self ++
         [ServiceCall (_domain self) service
            {[ATTR_ENTITY_ID := _entity_id self]}] |}.

(** Modelled from the spec: [self.char_on.set_value(value,
    should_callback=...)] is the programmatic setter of the accessory
    protocol's characteristic, outside the given sources: it stores the
    value and, when [should_callback] holds, runs the setter callback,
    which [__init__] binds to [set_state]. *)
Definition set_value (self : t) (value : value) (should_callback : bool)
    : t :=
  let self :=
    {| _entity_id := _entity_id self;
       _domain := _domain self;
       flag_target_state := flag_target_state self;
       char_on :=
         {| value_ := value;
            set_value_calls :=
              set_value_calls (char_on self) ++ [(value, should_callback)] |};
       services := services self |} in
  if should_callback then set_state self value else self.

(** [update_state(self, entity_id=None, old_state=None, new_state=None)] *)
Definition update_state (self : t) (new_state : option State) : t :=
  match new_state with
  | None => self
  | Some new_state =>
      let current_state := String.eqb (state new_state) STATE_ON in
      let self :=
        if negb (flag_target_state self)
        then set_value self (VBool current_state) false
        else self in
      {| _entity_id := _entity_id self;
         _domain := _domain self;
         flag_target_state := false;
         char_on := char_on self;
         services := services self |}
  end.

(** [__init__(self, hass, entity_id, display_name, ...)], for a host that
    has received no service call yet.  [split_entity_id] is the host's
    function that splits an entity id into its domain and object id. *)
Definition __init__ (split_entity_id : string -> list string)
    (entity_id : string) : outcome t :=
  match split_entity_id entity_id !! 0%nat with
  | Some domain =>
      Returns
        {| _entity_id := entity_id;
           _domain := domain;
           flag_target_state := false;
           char_on := {| value_ := VBool false; set_value_calls := [] |};
           services := [] |}
  | None => Raises IndexError
  end.

(** An accessory whose last command came from HomeKit: the flag is set. *)
Definition pending : t :=
  {| _entity_id := "switch.kitchen";
     _domain := "switch";
     flag_target_state := true;
     char_on := {| value_ := VBool true; set_value_calls := [] |};
     services :=
       [ServiceCall "switch" SERVICE_TURN_ON
          {[ATTR_ENTITY_ID := "switch.kitchen"]}] |}.

End Switch.

(** ** Calls on the accessory *)

(** The calls that reach a switch accessory: [set_state] from HomeKit and
    [update_state] from the host. *)
Inductive switch_call : Type :=
  | SetState (value : value)
  | UpdateState (new_state : option Switch.State).

Definition switch_step (self : Switch.t) (call : switch_call) : Switch.t :=
  match call with
  | SetState value => Switch.set_state self value
  | UpdateState new_state => Switch.update_state self new_state
  end.

(** A sequence of calls, first call first. *)
Definition switch_run (self : Switch.t) (calls : list switch_call)
    : Switch.t :=
  fold_left switch_step calls self.

(** * The cached state of the Tradfri adapters and the platform setup *)

(** ** Handles of the gateway client *)

(** The attributes of the gateway client's device and group handles that
    [tradfri.py] reads.  The handles are objects of the client library;
    a device handle here is one of a device with a light control. *)
Module Handle.

Record Light : Type := {
  state : value;
  dimmer : value;
  color_temp : value;
  hex_color : option string;
  xy_color : value
}.

Record LightControl : Type := {
  lights : list Light;
  can_set_mireds : bool;
  can_set_color : bool;
  min_mireds : value;
  max_mireds : value
}.

Record Device : Type := {
  name : string;
  reachable : bool;
  has_light_control : bool;
  light_control : LightControl
}.

Record Group : Type := {
  group_name : string;
  group_state : value;
  group_dimmer : value
}.

End Handle.

(** The feature flags of the host's light component (outside the given
    sources), as integers combined with bitwise or. *)
Class SupportFlags : Type := {
  SUPPORT_BRIGHTNESS : Z;
  SUPPORT_TRANSITION : Z;
  SUPPORT_COLOR_TEMP : Z;
  SUPPORT_COLOR : Z
}.

(** [SUPPORTED_FEATURES = (SUPPORT_BRIGHTNESS | SUPPORT_TRANSITION)] *)
Definition SUPPORTED_FEATURES `{SupportFlags} : Z :=
  Z.lor SUPPORT_BRIGHTNESS SUPPORT_TRANSITION.

(** What an adapter asks of the host: [async_schedule_update_ha_state()]. *)
Inductive notification : Type :=
  | ScheduleUpdate.

(** ** The cache of a light *)

Module LightEntity.

(** The instance attributes of [TradfriLight] set by [__init__] and
    [_refresh]; [_api] is set once and never changed, and is left out. *)
Record t : Type := {
  _light : option Handle.Device;
  _light_control : option Handle.LightControl;
  _light_data : option Handle.Light;
  _name : option string;
  _hs_color : value;
  _features : Z;
  _available : bool
}.

Section entity.
Context `{SupportFlags}.

(** The attributes as [__init__] sets them before it calls [_refresh]. *)
Definition blank : t :=
  {| _light := None;
     _light_control := None;
     _light_data := None;
     _name := None;
     _hs_color := VNone;
     _features := SUPPORTED_FEATURES;
     _available := true |}.

(** [_refresh(self, light)].  The assignments are made in order on the
    object: when [light.light_control.lights[0]] raises [IndexError], the
    assignments before it have been made and the others have not. *)
Definition _refresh (self : t) (light : Handle.Device) : t * outcome unit :=
  let self :=
    {| _light := Some light;
       _light_control := Some (Handle.light_control light);
       _light_data := _light_data self;
       _name := _name self;
       _hs_color := _hs_color self;
       _features := _features self;
       _available := Handle.reachable light |} in
  match Handle.lights (Handle.light_control light) !! 0%nat with
  | None => (self, Raises IndexError)
  | Some light_data =>
      let features := SUPPORTED_FEATURES in
      let features :=
        if Handle.can_set_mireds (Handle.light_control light)
        then Z.lor features SUPPORT_COLOR_TEMP else features in
      let features :=
        if Handle.can_set_color (Handle.light_control light)
        then Z.lor features SUPPORT_COLOR else features in
      ({| _light := _light self;
          _light_control := _light_control self;
          _light_data := Some light_data;
          _name := Some (Handle.name light);
          _hs_color := VNone;
          _features := features;
          _available := _available self |}, Returns tt)
  end.

(** [__init__(self, light, api)]: a constructor that raises makes no
    object. *)
Definition __init__ (light : Handle.Device) : outcome t :=
  match _refresh blank light with
  | (self, Returns _) => Returns self
  | (_, Raises e) => Raises e
  end.

(** [_observe_update(self, tradfri_device)] *)
Definition _observe_update (self : t) (tradfri_device : Handle.Device)
    : t * list notification * outcome unit :=
  match _refresh self tradfri_device with
  | (self, Returns _) => (self, [ScheduleUpdate], Returns tt)
  | (self, Raises e) => (self, [], Raises e)
  end.

(** The pushes of a list of devices, first push first; a push that raises
    does not stop the later ones.  The result is the cache and the
    notifications of all pushes. *)
Definition pushes (self : t) (devices : list Handle.Device)
    : t * list notification :=
  fold_left
    (fun acc device =>
       let '(self, notes, _) := _observe_update acc.1 device in
       (self, acc.2 ++ notes))
    devices (self, []).

End entity.

(** The properties [available], [supported_features], [name] and
    [hs_color] *)
Definition available (self : t) : bool := _available self.
Definition supported_features (self : t) : Z := _features self.
Definition name (self : t) : option string := _name self.
Definition hs_color (self : t) : value := _hs_color self.

(** [should_poll] *)
Definition should_poll (self : t) : bool := false.

(** A read [self._light_data.attribute]. *)
Definition light_data_attribute (get : Handle.Light -> value) (self : t)
    : outcome value :=
  match _light_data self with
  | Some light_data => Returns (get light_data)
  | None => Raises AttributeError
  end.

(** A read [self._light_control.attribute]. *)
Definition light_control_attribute (get : Handle.LightControl -> value)
    (self : t) : outcome value :=
  match _light_control self with
  | Some light_control => Returns (get light_control)
  | None => Raises AttributeError
  end.

(** The properties [is_on], [brightness], [color_temp], [min_mireds] and
    [max_mireds] *)
Definition is_on := light_data_attribute Handle.state.
Definition brightness := light_data_attribute Handle.dimmer.
Definition color_temp := light_data_attribute Handle.color_temp.
Definition min_mireds := light_control_attribute Handle.min_mireds.
Definition max_mireds := light_control_attribute Handle.max_mireds.

(** The property [xy_color]: the denormalised device colour, or [None]. *)
Definition xy_color (self : t) : outcome value :=
  match _light_data self with
  | None => Raises AttributeError
  | Some light_data =>
      if truthy (Handle.xy_color light_data) then
        match _light_control self with
        | None => Raises AttributeError
        | Some light_control =>
            if Handle.can_set_color light_control then
              xy_args ← unpack (Handle.xy_color light_data);
              xy ← call_xy denormalize_xy xy_args;
              Returns (VTuple [xy.1; xy.2])
            else Returns VNone
        end
      else Returns VNone
  end.

(** A cache in which the attributes that the properties read are set, as
    a constructor that has returned leaves them. *)
Definition complete `{SupportFlags} (self : t) : Prop :=
  is_Some (_light self)
  /\ is_Some (_light_control self)
  /\ is_Some (_light_data self)
  /\ is_Some (_name self)
  /\ _hs_color self = VNone
  /\ Z.land (_features self) SUPPORTED_FEATURES = SUPPORTED_FEATURES.

(** A device with at least one light. *)
Definition has_lights (device : Handle.Device) : bool :=
  match Handle.lights (Handle.light_control device) with
  | [] => false
  | _ => true
  end.

End LightEntity.

(** ** The cache of a group *)

Module GroupEntity.

Record t : Type := {
  _group : Handle.Group;
  _name : string
}.

(** [_refresh(self, group)] *)
Definition _refresh (self : t) (group : Handle.Group) : t :=
  {| _group := group; _name := Handle.group_name group |}.

(** [__init__(self, light, api)] *)
Definition __init__ (light : Handle.Group) : t :=
  _refresh {| _group := light; _name := Handle.group_name light |} light.

(** [_observe_update(self, tradfri_device)] *)
Definition _observe_update (self : t) (tradfri_device : Handle.Group)
    : t * list notification :=
  (_refresh self tradfri_device, [ScheduleUpdate]).

(** The pushes of a list of groups, first push first. *)
Definition pushes (self : t) (groups : list Handle.Group)
    : t * list notification :=
  fold_left
    (fun acc group =>
       let '(self, notes) := _observe_update acc.1 group in
       (self, acc.2 ++ notes))
    groups (self, []).

(** The properties [name], [is_on], [brightness] and [should_poll] *)
Definition name (self : t) : string := _name self.
Definition is_on (self : t) : value := Handle.group_state (_group self).
Definition brightness (self : t) : value :=
  Handle.group_dimmer (_group self).
Definition should_poll (self : t) : bool := false.

(** The property [supported_features] *)
Definition supported_features `{SupportFlags} (self : t) : Z :=
  SUPPORTED_FEATURES.

End GroupEntity.

(** ** The platform setup *)

Module Platform.

(** A gateway: the devices and the groups that the two requests for them
    bring back through [api]. *)
Record Gateway : Type := {
  get_devices : list Handle.Device;
  get_groups : list Handle.Group
}.

(** The three tables of [hass.data] that the setup reads, [KEY_API],
    [KEY_GATEWAY] and [KEY_TRADFRI_GROUPS], each keyed by gateway id. *)
Record HassData : Type := {
  KEY_API : gmap string unit;
  KEY_GATEWAY : gmap string Gateway;
  KEY_TRADFRI_GROUPS : gmap string value
}.

(** The requests awaited through [api], and the calls of
    [async_add_devices] with the handles to wrap as [TradfriLight] or
    [TradfriGroup] entities. *)
Inductive event : Type :=
  | Api_devices_command
  | Api_devices_commands
  | Api_groups_command
  | Api_groups_commands
  | AddLights (lights : list Handle.Device)
  | AddGroups (groups : list Handle.Group).

(** [if entities: async_add_devices(...)] *)
Definition add_if_any {A} (add : list A -> event) (entities : list A)
    : list event :=
  match entities with
  | [] => []
  | _ => [add entities]
  end.

(** [async_setup_platform(hass, config, async_add_devices,
    discovery_info=None)] *)
Definition async_setup_platform (hass : HassData)
    (discovery_info : option (gmap string string))
    : list event * outcome unit :=
  match discovery_info with
  | None => ([], Returns tt)
  | Some discovery_info =>
      match discovery_info !! "gateway" with
      | None => ([], Raises KeyError)
      | Some gateway_id =>
          match KEY_API hass !! gateway_id,
                KEY_GATEWAY hass !! gateway_id with
          | None, _ | _, None => ([], Raises KeyError)
          | Some _, Some gateway =>
              let devices := get_devices gateway in
              let lights :=
                List.filter Handle.has_light_control devices in
              let trace :=
                [Api_devices_command; Api_devices_commands]
                  ++ add_if_any AddLights lights in
              match KEY_TRADFRI_GROUPS hass !! gateway_id with
              | None => (trace, Raises KeyError)
              | Some allow_tradfri_groups =>
                  if truthy allow_tradfri_groups then
                    let groups := get_groups gateway in
                    (trace
                       ++ [Api_groups_command; Api_groups_commands]
                       ++ add_if_any AddGroups groups, Returns tt)
                  else (trace, Returns tt)
              end
          end
      end
  end.

End Platform.

(** ** Checks over a range *)

(** [all_from f d base]: [f] holds on the [2 ^ d] integers from [base]. *)
Fixpoint all_from (f : Z -> bool) (d : nat) (base : Z) : bool :=
  match d with
  | O => f base
  | S d => all_from f d base && all_from f d (base + 2 ^ Z.of_nat d)
  end.

(** The check of one device value [n], run on each value of the device
    scale: the quotient [n / 65535] is computed, its scaling with bias
    truncates to [n] again, the quotient less the bias lies between -0.56
    and 0.44, and the scaling with bias of that lower value truncates to
    [n - 36699] below 36700 and to [n - 36700] from there on. *)
Definition device_value_check (n : Z) : bool :=
  match int_truediv n 65535 with
  | Returns q =>
      let x := (q - 0.56)%float in
      match int_of_float (q * 65535 + 0.56),
            int_of_float (x * 65535 + 0.56) with
      | Returns back, Returns shifted =>
          (back =? n)
          && (shifted =? (if n <? 36700 then n - 36699 else n - 36700))
          && (-0.56 <=? x)%float && (x <=? 0.44)%float
      | _, _ => false
      end
  | Raises _ => false
  end.

(** ** More sample calls *)

(** A light whose data has no hex colour. *)
Definition white_light : TradfriLight.t :=
  {| TradfriLight._name := "bulb";
     TradfriLight._light_data := {| TradfriLight.hex_color := None |} |}.

(** Feature flags on four different bits. *)
Definition sample_flags : SupportFlags :=
  {| SUPPORT_BRIGHTNESS := 1;
     SUPPORT_TRANSITION := 32;
     SUPPORT_COLOR_TEMP := 2;
     SUPPORT_COLOR := 16 |}.

(** A colour bulb, as the gateway reports it. *)
Definition bulb : Handle.Device :=
  {| Handle.name := "bulb";
     Handle.reachable := true;
     Handle.has_light_control := true;
     Handle.light_control :=
       {| Handle.lights :=
            [{| Handle.state := VBool true;
                Handle.dimmer := VInt 200;
                Handle.color_temp := VInt 300;
                Handle.hex_color := Some "f5faf6";
                Handle.xy_color := VTuple [VInt 19661; VInt 19661] |}];
          Handle.can_set_mireds := true;
          Handle.can_set_color := true;
          Handle.min_mireds := VInt 250;
          Handle.max_mireds := VInt 454 |} |}.

(** A remote control: a device without light control and without
    lights. *)
Definition remote : Handle.Device :=
  {| Handle.name := "remote";
     Handle.reachable := false;
     Handle.has_light_control := false;
     Handle.light_control :=
       {| Handle.lights := [];
          Handle.can_set_mireds := false;
          Handle.can_set_color := false;
          Handle.min_mireds := VNone;
          Handle.max_mireds := VNone |} |}.

(** A gateway with the remote control, the bulb and one group, and a host
    in which it is set up under the id ["gw"], groups allowed. *)
Definition sample_gateway : Platform.Gateway :=
  {| Platform.get_devices := [remote; bulb];
     Platform.get_groups :=
       [{| Handle.group_name := "room";
           Handle.group_state := VBool true;
           Handle.group_dimmer := VInt 100 |}] |}.

Definition sample_hass : Platform.HassData :=
  {| Platform.KEY_API := {["gw" := tt]};
     Platform.KEY_GATEWAY := {["gw" := sample_gateway]};
     Platform.KEY_TRADFRI_GROUPS := {["gw" := VBool true]} |}.

(** The discovery information that names the gateway ["gw"]. *)
Definition sample_discovery : gmap string string := {["gateway" := "gw"]}.

(** [turn_on(brightness=100, transition=0.9)] *)
Definition short_transition : gmap string value :=
  <[ATTR_BRIGHTNESS := VInt 100]> (<[ATTR_TRANSITION := VFloat 0.9]> ∅).

(** No job is scheduled in a trace of the observe loop. *)
Definition no_job_in {Cmd} (trace : list (event Cmd)) : Prop :=
  Forall (fun e => match e with AddJob _ => False | _ => True end) trace.

(** * Properties of the switch accessory *)

Section switch_properties.
Import Switch.

Lemma set_state_flag self v : flag_target_state (set_state self v) = true.
Proof. reflexivity. Qed.

Lemma set_state_sequence_flag values : forall self,
  flag_target_state self = true ->
  flag_target_state (fold_left set_state values self) = true.
Proof.
  induction values as [|v values IH]; intros self Hflag; simpl.
  - exact Hflag.
  - apply IH, set_state_flag.
Qed.

Lemma update_state_Some_flag self new_state :
  flag_target_state (update_state self (Some new_state)) = false.
Proof. reflexivity. Qed.

Lemma init_domain split entity_id self :
  __init__ split entity_id = Returns self ->
  split entity_id !! 0%nat = Some (_domain self)
  /\ _entity_id self = entity_id
  /\ flag_target_state self = false.
Proof.
  unfold __init__.
  destruct (split entity_id !! 0%nat) as [d|]; [|discriminate].
  intros [= <-]. auto.
Qed.

Lemma set_state_service self v :
  services (set_state self v)
  = services self ++
      [ServiceCall (_domain self)
         (if truthy v then SERVICE_TURN_ON else SERVICE_TURN_OFF)
         {[ATTR_ENTITY_ID := _entity_id self]}].
Proof. reflexivity. Qed.

(** C3, as stated, fails: an update with no new state returns before the
    flag is cleared, so a set flag is still set after the call. *)
Lemma update_state_None_keeps_flag :
  flag_target_state (update_state pending None) <> false.
Proof. discriminate. Qed.

(** C3, amended: after [update_state] with a new state the suppression
    flag is [False], whatever it was before; [update_state] without a new
    state changes nothing, the flag included. *)
Theorem update_state_flag (self : t) :
  (forall new_state,
     flag_target_state (update_state self (Some new_state)) = false)
  /\ update_state self None = self.
Proof.
  split; [intros new_state; apply update_state_Some_flag | reflexivity].
Qed.

(** C5: [update_state] with a new state pushes nothing to the
    characteristic when the suppression flag is set; when it is unset it
    pushes exactly the boolean [new_state.state == STATE_ON], once, with
    [should_callback=False], so that no service call results; the flag is
    cleared in both cases. *)
Theorem update_state_push (self : t) (new_state : State) :
  let current_state := VBool (String.eqb (state new_state) STATE_ON) in
  let self' := update_state self (Some new_state) in
  flag_target_state self' = false
  /\ services self' = services self
  /\ char_on self' =
       if flag_target_state self then char_on self
       else {| value_ := current_state;
               set_value_calls :=
                 set_value_calls (char_on self) ++ [(current_state, false)] |}.
Proof.
  unfold update_state.
  destruct (flag_target_state self) eqn:Hflag; simpl; auto.
Qed.

(** C6: [set_state(True)] issues exactly one service call, the turn-on
    service of the accessory's domain with the accessory's entity id as
    target, and sets the suppression flag; the flag stays set through any
    further calls of [set_state], that is until [update_state] runs. *)
Theorem set_state_true (self : t) :
  let self' := set_state self (VBool true) in
  services self' =
    services self ++
      [ServiceCall (_domain self) SERVICE_TURN_ON
         {[ATTR_ENTITY_ID := _entity_id self]}]
  /\ flag_target_state self' = true
  /\ forall values,
       flag_target_state (fold_left set_state values self') = true.
Proof.
  repeat split. intros values. now apply set_state_sequence_flag.
Qed.

End switch_properties.

(** * Properties of the colour conversions *)

(** The bias is below one: alone, it truncates to zero. *)
Lemma int_of_bias : int_of_float 0.56 = Returns 0.
Proof. reflexivity. Qed.

(** C4, as stated, fails: the pair (0.0, 0.0) is not sent to (36, 36). *)
Lemma normalize_xy_zero_not_36 :
  normalize_xy (VFloat 0) (VFloat 0) VNone <> Returns (36, 36).
Proof. vm_compute. discriminate. Qed.

(** C4, amended: [normalize_xy(0.0, 0.0)] returns the device-scale pair
    (0, 0): each coordinate is [int(0.0*65535+0.56)], and the bias 0.56 is
    cut off by the truncation. *)
Theorem normalize_xy_zero (brightness : value) :
  normalize_xy (VFloat 0) (VFloat 0) brightness = Returns (0, 0).
Proof. reflexivity. Qed.

Example normalize_xy_corners :
  normalize_xy (VFloat 1) (VFloat 1) VNone = Returns (65535, 65535)
  /\ normalize_xy (VFloat 0.3) (VFloat 0.6) VNone = Returns (19661, 39321)
  /\ normalize_xy (VInt 1) (VBool false) VNone = Returns (65535, 0).
Proof. repeat split; reflexivity. Qed.

Example denormalize_normalize_half :
  (nxy ← normalize_xy (VFloat 0.5) (VFloat 0.5) VNone;
   denormalize_xy (VInt nxy.1) (VInt nxy.2) VNone)
  = Returns (VFloat (32768 / 65535 - 0.56), VFloat (32768 / 65535 - 0.56)).
Proof. reflexivity. Qed.

(** C8: [denormalize_xy] does not invert [normalize_xy]: there is a pair of
    coordinates in the unit interval, here (0.0, 0.0), that [normalize_xy]
    followed by [denormalize_xy] does not give back, as Python floats or as
    values: each coordinate comes back lower by more than one half. *)
Theorem denormalize_xy_not_inverse :
  exists (x y : float) (nx ny : Z) (x' y' : float),
    (0 <=? x)%float = true /\ (x <=? 1)%float = true
    /\ (0 <=? y)%float = true /\ (y <=? 1)%float = true
    /\ normalize_xy (VFloat x) (VFloat y) VNone = Returns (nx, ny)
    /\ denormalize_xy (VInt nx) (VInt ny) VNone = Returns (VFloat x', VFloat y')
    /\ (x' =? x)%float = false /\ (y' =? y)%float = false
    /\ (VFloat x', VFloat y') <> (VFloat x, VFloat y)
    /\ (x' <=? x - 0.5)%float = true /\ (y' <=? y - 0.5)%float = true.
Proof.
  exists 0%float, 0%float, 0, 0, (-0.56)%float, (-0.56)%float.
  repeat split; try reflexivity.
  intros Heq.
  apply (f_equal (fun p => match fst p with
                           | VFloat f => (f <? 0)%float
                           | _ => false
                           end)) in Heq.
  vm_compute in Heq. discriminate.
Qed.

(** * Properties of the observation loop *)

Section observe_properties.
Context {Cmd : Type}.

Ltac observe_cases start self observed :=
  unfold failed_warning;
  destruct observed as [|[cmd|err] observed]; simpl;
  [ now rewrite app_nil_r
  | reflexivity
  | destruct (is_PytradfriError err); [|reflexivity];
    now destruct (start self observed None) ].

Lemma group_observe_exc self (observed : list (outcome Cmd)) exc :
  TradfriGroup._async_start_observe self observed exc
  = let '(trace, result) :=
      TradfriGroup._async_start_observe self observed None in
    (failed_warning (TradfriGroup._name self) exc ++ trace, result).
Proof.
  observe_cases (@TradfriGroup._async_start_observe Cmd) self observed.
Qed.

Lemma light_observe_exc self (observed : list (outcome Cmd)) exc :
  TradfriLight._async_start_observe self observed exc
  = let '(trace, result) :=
      TradfriLight._async_start_observe self observed None in
    (failed_warning (TradfriLight._name self) exc ++ trace, result).
Proof.
  observe_cases (@TradfriLight._async_start_observe Cmd) self observed.
Qed.

Ltac retry_induction start self observed n :=
  let IH := fresh "IH" in
  induction n as [|n IH]; simpl;
  [ now destruct (start self observed None)
  | rewrite IH; now destruct (start self observed None) ].

Lemma group_observe_retries self (observed : list (outcome Cmd)) n :
  TradfriGroup._async_start_observe self
    (replicate n (Raises PytradfriError) ++ observed) None
  = let '(trace, result) :=
      TradfriGroup._async_start_observe self observed None in
    (retries n ++ trace, result).
Proof.
  retry_induction (@TradfriGroup._async_start_observe Cmd) self observed n.
Qed.

Lemma light_observe_retries self (observed : list (outcome Cmd)) n :
  TradfriLight._async_start_observe self
    (replicate n (Raises PytradfriError) ++ observed) None
  = let '(trace, result) :=
      TradfriLight._async_start_observe self observed None in
    (retries n ++ trace, result).
Proof.
  retry_induction (@TradfriLight._async_start_observe Cmd) self observed n.
Qed.

(** C9: in the observe loop of both adapters, a [PytradfriError] raised by
    [observe] is caught, logged and followed at once by a new call of
    [observe], however many times in a row it happens: after [n] failures
    a success schedules the command and the call returns; an exception of
    any other class ends the call and reaches the caller; and while the
    failures last the call is still retrying. *)
Theorem observe_retries_PytradfriError_only
    (group : TradfriGroup.t) (light : TradfriLight.t) (n : nat) :
  let failures : list (outcome Cmd) := replicate n (Raises PytradfriError) in
  (forall cmd rest,
     TradfriGroup._async_start_observe group
       (failures ++ Returns cmd :: rest) None
     = (retries n ++ [Observe; AddJob cmd], Some (Returns tt))
     /\ TradfriLight._async_start_observe light
          (failures ++ Returns cmd :: rest) None
        = (retries n ++ [Observe; AddJob cmd], Some (Returns tt)))
  /\ (forall err rest, is_PytradfriError err = false ->
       TradfriGroup._async_start_observe group
         (failures ++ Raises err :: rest) None
       = (retries n ++ [Observe], Some (Raises err))
       /\ TradfriLight._async_start_observe light
            (failures ++ Raises err :: rest) None
          = (retries n ++ [Observe], Some (Raises err)))
  /\ TradfriGroup._async_start_observe group failures None = (retries n, None)
  /\ TradfriLight._async_start_observe light failures None = (retries n, None).
Proof.
  intros failures. subst failures. split; [|split; [|split]].
  - intros cmd rest.
    now rewrite group_observe_retries, light_observe_retries.
  - intros err rest Herr.
    rewrite group_observe_retries, light_observe_retries. simpl.
    now rewrite Herr.
  - rewrite <- (app_nil_r (replicate n _)), group_observe_retries.
    simpl. now rewrite app_nil_r.
  - rewrite <- (app_nil_r (replicate n _)), light_observe_retries.
    simpl. now rewrite app_nil_r.
Qed.

End observe_properties.

(** Two failed subscriptions, then a [TypeError]: two retries, and the
    [TypeError] reaches the caller. *)
Lemma observe_retries_witness :
  is_PytradfriError TypeError = false
  /\ TradfriLight._async_start_observe (Cmd := nat)
       {| TradfriLight._name := "lamp";
          TradfriLight._light_data :=
            {| TradfriLight.hex_color := None |} |}
       [Raises PytradfriError; Raises PytradfriError; Raises TypeError;
        Returns 7%nat] None
     = ([Observe; Warning "Observation failed, trying again";
         Observe; Warning "Observation failed, trying again";
         Observe], Some (Raises TypeError)).
Proof.
  split; [reflexivity|].
  apply (observe_retries_PytradfriError_only
           {| TradfriGroup._name := "room" |}
           {| TradfriLight._name := "lamp";
              TradfriLight._light_data :=
                {| TradfriLight.hex_color := None |} |} 2).
  reflexivity.
Defined.

(** * Properties of the coroutine monad *)

Section monad_properties.
Context {A B : Type}.

Lemma bind_eval (o : outcome A) (f : A -> M B) :
  eval o ≫= f
  = match o with Returns a => f a | Raises e => ([], Raises e) end.
Proof. destruct o as [a|e]; simpl; [now destruct (f a)|reflexivity]. Qed.

Lemma bind_api (c : command) (f : unit -> M B) :
  api c ≫= f = (c :: (f tt).1, (f tt).2).
Proof. simpl. now destruct (f tt). Qed.

End monad_properties.

(** * Properties of the group adapter *)

Lemma eq_255_int (n : Z) : eq_255 (VInt n) = true <-> n = 255.
Proof. simpl. apply Z.eqb_eq. Qed.

(** [int] accepts every finite float. *)
Lemma int_of_float_finite (f : float) :
  is_finite f = true -> is_Returns (int_of_float f).
Proof.
  unfold is_finite, int_of_float, Prim2SF.
  destruct (is_nan f); [discriminate|].
  destruct (is_zero f); [intros _; exact I|].
  destruct (is_infinity f); [discriminate|]. intros _.
  destruct (Z.frexp f) as [r e].
  destruct (shr_fexp _ _ _ _ _) as [shr e'].
  now destruct (shr_m shr).
Qed.

(** The transition time is computed whenever the transition duration is
    absent, an integer, a boolean or a finite float. *)
Lemma transition_params_returns (kwargs : gmap string value) :
  match kwargs !! ATTR_TRANSITION with
  | None | Some (VInt _) | Some (VBool _) => True
  | Some (VFloat f) => is_finite f = true
  | Some VNone | Some (VTuple _) => False
  end ->
  is_Returns (transition_params kwargs).
Proof.
  unfold transition_params.
  destruct (kwargs !! ATTR_TRANSITION) as [[| | |f|]|]; simpl; try done.
  intros Hf. pose proof (int_of_float_finite f Hf) as Hint.
  now destruct (int_of_float f).
Qed.

(** What a group's [async_turn_on] does, by the outcome of the conversion
    of the transition time. *)
Lemma group_turn_on_run (kwargs : gmap string value) :
  TradfriGroup.async_turn_on kwargs
  = match transition_params kwargs with
    | Raises e => ([], Raises e)
    | Returns keys =>
        ([match kwargs !! ATTR_BRIGHTNESS with
          | Some b => Call set_dimmer [if eq_255 b then VInt 254 else b] keys
          | None => Call set_state [VInt 1] ∅
          end], Returns tt)
    end.
Proof.
  unfold TradfriGroup.async_turn_on. rewrite bind_eval.
  destruct (transition_params kwargs) as [keys|e]; [|reflexivity].
  destruct (kwargs !! ATTR_BRIGHTNESS) as [b|] eqn:Hb; [|reflexivity].
  rewrite bind_eval. unfold subscript.
  destruct (eq_255 b).
  - now rewrite lookup_insert_eq.
  - now rewrite Hb.
Qed.

(** C10: a call of a group's [async_turn_on] whose transition time, if
    any, converts to an integer hands exactly one command to the gateway:
    [set_dimmer] with the brightness (255 replaced by 254) and the
    transition time when a brightness is given, and no [set_state] then;
    [set_state(1)] when no brightness is given.  [async_turn_off] always
    hands over exactly [set_state(0)]. *)
Theorem group_turn_on_one_command (kwargs : gmap string value) :
  (forall keys, transition_params kwargs = Returns keys ->
     TradfriGroup.async_turn_on kwargs
     = ([match kwargs !! ATTR_BRIGHTNESS with
         | Some b => Call set_dimmer [if eq_255 b then VInt 254 else b] keys
         | None => Call set_state [VInt 1] ∅
         end], Returns tt))
  /\ (is_Returns (TradfriGroup.async_turn_on kwargs).2 ->
      is_Returns (transition_params kwargs))
  /\ TradfriGroup.async_turn_off kwargs
     = ([Call set_state [VInt 0] ∅], Returns tt).
Proof.
  rewrite group_turn_on_run. repeat split.
  - now intros keys ->.
  - now destruct (transition_params kwargs).
Qed.

(** The [set_dimmer] command of a group carries 254 for a brightness equal
    to 255 and the requested brightness otherwise; a call that returns has
    sent that command and no other. *)
Lemma group_brightness_255_sent_as_254
    (kwargs : gmap string value) (b : value) :
  kwargs !! ATTR_BRIGHTNESS = Some b ->
  let sent := if eq_255 b then VInt 254 else b in
  Forall (fun c => meth c = set_dimmer /\ args c = [sent])
    (TradfriGroup.async_turn_on kwargs).1
  /\ (is_Returns (TradfriGroup.async_turn_on kwargs).2 ->
      exists keys,
        (TradfriGroup.async_turn_on kwargs).1 = [Call set_dimmer [sent] keys]).
Proof.
  intros Hb sent. rewrite group_turn_on_run, Hb.
  destruct (transition_params kwargs) as [keys|e]; simpl.
  - split; [repeat constructor|]. intros _. now exists keys.
  - split; [constructor|done].
Qed.

(** * Properties of the light adapter *)

(** The option names that the module imports evaluate to the host's
    constants; [ATTR_XY_COLOR] and [ATTR_RGB_COLOR] do not evaluate. *)
Lemma global_name_bound :
  global_name "ATTR_BRIGHTNESS" = Returns ATTR_BRIGHTNESS
  /\ global_name "ATTR_COLOR_TEMP" = Returns ATTR_COLOR_TEMP
  /\ global_name "ATTR_HS_COLOR" = Returns ATTR_HS_COLOR
  /\ global_name "ATTR_TRANSITION" = Returns ATTR_TRANSITION
  /\ global_name "ATTR_TRANSITION_TIME" = Returns ATTR_TRANSITION_TIME.
Proof. repeat split. Qed.

Lemma global_name_unbound :
  global_name "ATTR_XY_COLOR" = Raises NameError
  /\ global_name "ATTR_RGB_COLOR" = Raises NameError.
Proof. split; reflexivity. Qed.

Section light_properties.
Import TradfriLight.
Context `{ColorUtil} (yield_from : command -> M unit).

(** The second conditional ends at its first test, on the name
    [ATTR_XY_COLOR]: it sends nothing and raises [NameError], whatever the
    options of the call. *)
Lemma second_color_command_run kwargs brightness params :
  second_color_command kwargs brightness params = ([], Raises NameError).
Proof.
  unfold second_color_command.
  now rewrite (proj1 global_name_unbound), bind_eval.
Qed.

(** The first conditional, branch by branch: the HS branch ends in an
    exception of its conversions or in the [yield from] of a
    [set_rgb_color] command; the branch of the colour temperature ends at
    the read of [_temp_supported]. *)
Lemma first_color_command_run self kwargs :
  let run := first_color_command yield_from self kwargs in
  match kwargs !! ATTR_HS_COLOR, hex_color (_light_data self) with
  | Some _, Some _ =>
      (exists e, run = ([], Raises e))
      \/ (exists rgb, run = yield_from (Call set_rgb_color rgb ∅))
  | _, _ =>
      match kwargs !! ATTR_COLOR_TEMP, hex_color (_light_data self) with
      | Some _, Some _ => run = ([], Raises AttributeError)
      | _, _ => run = ([], Returns tt)
      end
  end.
Proof.
  unfold first_color_command.
  destruct (kwargs !! ATTR_HS_COLOR) as [hs|],
    (hex_color (_light_data self)) as [hex|],
    (kwargs !! ATTR_COLOR_TEMP) as [mired|]; cbv beta iota zeta;
    try reflexivity.
  all: rewrite bind_eval; destruct (unpack hs) as [hs_args|e];
    [|left; now exists e].
  all: rewrite bind_eval; destruct (color_hs_to_RGB hs_args) as [rgb|e];
    [|left; now exists e].
  all: rewrite bind_eval; destruct (unpack rgb) as [rgb_args|e];
    [|left; now exists e].
  all: right; now exists rgb_args.
Qed.

(** The run of [async_turn_on]: the first conditional, then the
    conversion of the transition time, then the [NameError] of the second
    conditional.  The brightness command is never reached. *)
Lemma light_turn_on_run self kwargs :
  async_turn_on yield_from self kwargs
  = match first_color_command yield_from self kwargs with
    | (first, Raises e) => (first, Raises e)
    | (first, Returns _) =>
        (first, Raises match transition_params kwargs with
                       | Raises e => e
                       | Returns _ => NameError
                       end)
    end.
Proof.
  unfold async_turn_on.
  destruct (first_color_command yield_from self kwargs) as [first [[]|e]];
    [|reflexivity].
  cbn [mbind M_bind]. rewrite bind_eval.
  destruct (transition_params kwargs) as [params|e];
    [|now rewrite app_nil_r].
  cbv zeta. rewrite second_color_command_run.
  cbn [mbind M_bind]. now rewrite app_nil_r.
Qed.

(** No call of [async_turn_on] returns, and what a call has sent when it
    raises is what its first conditional has sent: nothing, or what the
    [yield from] of one [set_rgb_color] command sends. *)
Lemma light_turn_on_shape self kwargs :
  let run := async_turn_on yield_from self kwargs in
  (exists e, run.2 = Raises e)
  /\ (run.1 = []
      \/ exists rgb, run.1 = (yield_from (Call set_rgb_color rgb ∅)).1).
Proof.
  cbv zeta. rewrite light_turn_on_run.
  pose proof (first_color_command_run self kwargs) as Hfirst.
  cbv zeta in Hfirst.
  destruct (kwargs !! ATTR_HS_COLOR) as [hs|],
    (hex_color (_light_data self)) as [hex|],
    (kwargs !! ATTR_COLOR_TEMP) as [mired|];
    try (rewrite Hfirst; simpl; split; [eauto|now left]).
  all: destruct Hfirst as [[e ->] | [rgb ->]];
    try (simpl; split; [eauto|now left]).
  all: destruct (yield_from (Call set_rgb_color rgb ∅))
         as [sent [[]|e]] eqn:Hsent;
    simpl; (split; [eauto|right; exists rgb; now rewrite Hsent]).
Qed.

(** C1, on the code: the call with brightness 100, XY colour (0.3, 0.3)
    and a transition of 2 seconds raises [NameError] at the test of the XY
    colour, whose option name the module does not bind, and has handed no
    command to the gateway: neither the [set_xy_color] nor the
    [set_dimmer] of the claim. *)
Theorem xy_brightness_transition_NameError (self : t) :
  async_turn_on yield_from self xy_brightness_transition
  = ([], Raises NameError).
Proof. rewrite light_turn_on_run. vm_compute. reflexivity. Qed.

(** C2, on the code: with the XY colour and the RGB colour in one call no
    colour path runs: the call raises [NameError] at the test of the XY
    colour and has sent nothing.  Nor does one run with the HS colour and
    the colour temperature on a light without hex colour, where the call
    ends in the same way, or with the colour temperature and the XY colour
    on a light that reports a hex colour, where the call raises
    [AttributeError] at the read of [_temp_supported]. *)
Theorem color_attributes_without_command :
  (forall self : t,
     async_turn_on yield_from self xy_and_rgb = ([], Raises NameError))
  /\ async_turn_on yield_from white_light hs_and_color_temp
     = ([], Raises NameError)
  /\ async_turn_on yield_from color_light color_temp_and_xy
     = ([], Raises AttributeError).
Proof.
  split; [intros self|split]; rewrite light_turn_on_run; vm_compute;
    reflexivity.
Qed.

(** C7, on the code: the call with brightness 255 and a transition of 2
    seconds makes a group send [set_dimmer] with 254; a light raises
    [NameError] before its brightness command and sends no [set_dimmer]
    at all. *)
Theorem full_brightness_without_set_dimmer :
  (forall self : t,
     async_turn_on yield_from self full_brightness = ([], Raises NameError))
  /\ TradfriGroup.async_turn_on full_brightness
     = ([Call set_dimmer [VInt 254] {[ATTR_TRANSITION_TIME := VInt 20]}],
        Returns tt).
Proof.
  split; [intros self; rewrite light_turn_on_run|]; vm_compute; reflexivity.
Qed.

End light_properties.

(** * The properties on sample calls *)

Lemma group_turn_on_witness :
  transition_params full_brightness
  = Returns {[ATTR_TRANSITION_TIME := VInt 20]}
  /\ is_Returns (transition_params full_brightness)
  /\ TradfriGroup.async_turn_on full_brightness
     = ([Call set_dimmer [VInt 254] {[ATTR_TRANSITION_TIME := VInt 20]}],
        Returns tt).
Proof.
  split; [reflexivity|]. split.
  - apply (group_turn_on_one_command full_brightness). exact I.
  - exact (proj1 (group_turn_on_one_command full_brightness) _ eq_refl).
Defined.

(** With the HS colour and the colour temperature, on a light that
    reports a hex colour and with [yield from] read as [await], the call
    sends the RGB command of the HS branch, and no temperature command,
    before it raises [NameError]. *)
Example hs_and_color_temp_run :
  @TradfriLight.async_turn_on fixed_color_util api
    TradfriLight.color_light hs_and_color_temp
  = ([Call set_rgb_color [VInt 255; VInt 149; VInt 128] ∅],
     Raises NameError).
Proof. vm_compute. reflexivity. Qed.

(** * Further properties of the switch accessory *)

Section switch_calls.
Import Switch.

Lemma switch_run_app self calls calls' :
  switch_run self (calls ++ calls')
  = switch_run (switch_run self calls) calls'.
Proof. apply fold_left_app. Qed.

Lemma switch_step_ids self call :
  _entity_id (switch_step self call) = _entity_id self
  /\ _domain (switch_step self call) = _domain self.
Proof.
  destruct call as [v|[ns|]]; simpl; auto.
  unfold update_state. now destruct (flag_target_state self).
Qed.

Lemma update_state_services self new_state :
  services (update_state self new_state) = services self.
Proof.
  destruct new_state as [ns|]; [|reflexivity].
  unfold update_state. now destruct (flag_target_state self).
Qed.

(** X1: the state change that follows a command from HomeKit is not sent
    back to HomeKit, and the one after it is: after [set_state] and one
    [update_state] with a state, the characteristic is as it was and the
    flag is clear; a second [update_state] then pushes its state. *)
Theorem set_state_update_state_echo
    (self : t) (v : value) (echo next : State) :
  let self1 := update_state (set_state self v) (Some echo) in
  let pushed := VBool (String.eqb (state next) STATE_ON) in
  char_on self1 = char_on self
  /\ flag_target_state self1 = false
  /\ services self1
     = services self ++
         [ServiceCall (_domain self)
            (if truthy v then SERVICE_TURN_ON else SERVICE_TURN_OFF)
            {[ATTR_ENTITY_ID := _entity_id self]}]
  /\ char_on (update_state self1 (Some next))
     = {| value_ := pushed;
          set_value_calls :=
            set_value_calls (char_on self) ++ [(pushed, false)] |}
  /\ services (update_state self1 (Some next)) = services self1.
Proof. repeat split. Qed.

(** X2: over any sequence of calls, the service calls made are exactly
    those of the [set_state] calls, in order, each the turn-on or turn-off
    service by the truth of its value, all for the same domain and entity
    id; [update_state] never calls a service, and the entity id and the
    domain never change. *)
Theorem switch_run_services (self : t) (calls : list switch_call) :
  services (switch_run self calls)
  = services self ++
      omap (fun call =>
              match call with
              | SetState v =>
                  Some (ServiceCall (_domain self)
                          (if truthy v then SERVICE_TURN_ON
                           else SERVICE_TURN_OFF)
                          {[ATTR_ENTITY_ID := _entity_id self]})
              | UpdateState _ => None
              end) calls
  /\ _entity_id (switch_run self calls) = _entity_id self
  /\ _domain (switch_run self calls) = _domain self.
Proof.
  revert self. induction calls as [|call calls IH]; intros self.
  - simpl. now rewrite app_nil_r.
  - change (switch_run self (call :: calls))
      with (switch_run (switch_step self call) calls).
    destruct (IH (switch_step self call)) as (Hs & He & Hd).
    destruct (switch_step_ids self call) as [He' Hd'].
    rewrite Hs, He, Hd, He', Hd'. repeat split.
    destruct call as [v|ns]; simpl.
    + now rewrite <- app_assoc.
    + now rewrite update_state_services.
Qed.

(** X3: over any sequence of calls, what is pushed to the characteristic
    is pushed with [should_callback=False] and is a boolean, earlier
    pushes are kept, and there is at most one push for each
    [update_state] that has a state. *)
Theorem switch_run_pushes (self : t) (calls : list switch_call) :
  exists pushed,
    set_value_calls (char_on (switch_run self calls))
    = set_value_calls (char_on self) ++ pushed
    /\ Forall (fun push => push.2 = false /\ exists b, push.1 = VBool b)
         pushed
    /\ (length pushed
        <= length (List.filter
                     (fun call =>
                        match call with
                        | UpdateState (Some _) => true
                        | _ => false
                        end) calls))%nat.
Proof.
  revert self. induction calls as [|call calls IH]; intros self.
  - exists []. simpl. rewrite app_nil_r. repeat split; [constructor|lia].
  - change (switch_run self (call :: calls))
      with (switch_run (switch_step self call) calls).
    destruct (IH (switch_step self call)) as (pushed & Hp & Hall & Hlen).
    rewrite Hp. destruct call as [v|[ns|]]; simpl.
    + exists pushed. repeat split; auto.
    + unfold update_state. destruct (flag_target_state self); simpl.
      * exists pushed. repeat split; auto; lia.
      * eexists (_ :: pushed). rewrite <- app_assoc. simpl.
        repeat split; [|simpl; lia].
        constructor; [|assumption]. simpl. eauto.
    + exists pushed. repeat split; auto.
Qed.

(** X4: a new accessory has its flag clear, so that the first state
    reported by the host is pushed to the characteristic, and no service
    has been called; an entity id that [split_entity_id] splits into
    nothing makes the constructor raise [IndexError]. *)
Theorem init_then_update_state
    (split_entity_id : string -> list string) (entity_id : string) :
  (forall self new_state,
     __init__ split_entity_id entity_id = Returns self ->
     let pushed := VBool (String.eqb (state new_state) STATE_ON) in
     update_state self (Some new_state)
     = {| _entity_id := entity_id;
          _domain := _domain self;
          flag_target_state := false;
          char_on :=
            {| value_ := pushed; set_value_calls := [(pushed, false)] |};
          services := [] |})
  /\ (split_entity_id entity_id = [] ->
      __init__ split_entity_id entity_id = Raises IndexError).
Proof.
  unfold __init__. split.
  - intros self new_state.
    destruct (split_entity_id entity_id !! 0%nat); [|discriminate].
    now intros [= <-].
  - now intros ->.
Qed.

End switch_calls.

Lemma init_then_update_state_witness :
  Switch.__init__ (fun _ => ["switch"; "kitchen"]) "switch.kitchen"
  = Returns
      {| Switch._entity_id := "switch.kitchen";
         Switch._domain := "switch";
         Switch.flag_target_state := false;
         Switch.char_on :=
           {| Switch.value_ := VBool false; Switch.set_value_calls := [] |};
         Switch.services := [] |}
  /\ Switch.value_
       (Switch.char_on
          (Switch.update_state
             {| Switch._entity_id := "switch.kitchen";
                Switch._domain := "switch";
                Switch.flag_target_state := false;
                Switch.char_on :=
                  {| Switch.value_ := VBool false;
                     Switch.set_value_calls := [] |};
                Switch.services := [] |}
             (Some {| Switch.state := "on" |})))
     = VBool true
  /\ Switch.__init__ (fun _ => []) "switch.kitchen" = Raises IndexError.
Proof.
  split; [reflexivity|]. split.
  - rewrite (proj1 (init_then_update_state
                      (fun _ => ["switch"; "kitchen"]) "switch.kitchen")
               _ {| Switch.state := "on" |} eq_refl).
    reflexivity.
  - apply (init_then_update_state (fun _ => []) "switch.kitchen").
    reflexivity.
Defined.

(** * Further properties of the observation loop *)

Section observe_more.
Context {Cmd : Type}.

(** X5: the observe loops of the two adapters are the same loop: on the
    same results of [observe] and the same argument, a group and a light
    of the same name leave the same trace and end the same way. *)
Theorem observe_group_light_agree
    (group : TradfriGroup.t) (light : TradfriLight.t)
    (observed : list (outcome Cmd)) :
  TradfriGroup._name group = TradfriLight._name light ->
  forall exc,
    TradfriGroup._async_start_observe group observed exc
    = TradfriLight._async_start_observe light observed exc.
Proof.
  intros Hname.
  induction observed as [|[cmd|err] observed IH]; intros exc; simpl;
    rewrite Hname; try reflexivity.
  now rewrite (IH None).
Qed.

Lemma no_job_in_failed (name : string) (exc : option exn) :
  no_job_in (failed_warning (Cmd := Cmd) name exc).
Proof. destruct exc; repeat constructor. Qed.

Lemma light_observe_job (light : TradfriLight.t)
    (observed : list (outcome Cmd)) :
  forall exc,
    let '(trace, result) :=
      TradfriLight._async_start_observe light observed exc in
    match result with
    | Some (Returns _) =>
        exists before cmd,
          trace = before ++ [AddJob cmd] /\ no_job_in before
          /\ Returns cmd ∈ observed
    | Some (Raises err) =>
        no_job_in trace /\ is_PytradfriError err = false
        /\ Raises err ∈ observed
    | None =>
        no_job_in trace
        /\ Forall (fun o => o = Raises PytradfriError) observed
    end.
Proof.
  induction observed as [|[cmd|err] observed IH]; intros exc;
    rewrite light_observe_exc;
    pose proof (no_job_in_failed (TradfriLight._name light) exc) as Hfailed.
  - simpl. split; [now rewrite app_nil_r|constructor].
  - simpl.
    exists (failed_warning (TradfriLight._name light) exc ++ [Observe]), cmd.
    split; [now rewrite <- app_assoc|]. split; [|left].
    apply Forall_app. split; [assumption|now repeat constructor].
  - simpl. destruct (is_PytradfriError err) eqn:Herr.
    + specialize (IH None).
      destruct (TradfriLight._async_start_observe light observed None)
        as [trace [[[]|err']|]].
      * destruct IH as (before & cmd & -> & Hno & Hin).
        exists (failed_warning (TradfriLight._name light) exc
                  ++ [Observe; Warning "Observation failed, trying again"]
                  ++ before), cmd.
        split; [now rewrite <- app_assoc|]. split; [|now right].
        apply Forall_app. split; [assumption|].
        now repeat constructor.
      * destruct IH as (Hno & Herr' & Hin).
        split; [|split; [assumption|now right]].
        apply Forall_app. split; [assumption|].
        now repeat constructor.
      * destruct IH as (Hno & Hall). split.
        -- apply Forall_app. split; [assumption|].
           now repeat constructor.
        -- constructor; [|assumption]. now destruct err.
    + split; [|split; [assumption|left]].
      apply Forall_app. split; [assumption|now repeat constructor].
Qed.

(** X6: a call of the observe loop, of a light or of a group, schedules
    the observation command exactly when it returns, once, as its last
    act, and the command is one that [observe] returned; a call that ends
    with an exception, which is then not a [PytradfriError] but one that
    [observe] raised, schedules nothing, and neither does a call that is
    still retrying, which has met [PytradfriError]s only. *)
Theorem observe_schedules_once
    (group : TradfriGroup.t) (light : TradfriLight.t)
    (observed : list (outcome Cmd)) (exc : option exn) :
  let spec (run : list (event Cmd) * option (outcome unit)) :=
    match run.2 with
    | Some (Returns _) =>
        exists before cmd,
          run.1 = before ++ [AddJob cmd] /\ no_job_in before
          /\ Returns cmd ∈ observed
    | Some (Raises err) =>
        no_job_in run.1 /\ is_PytradfriError err = false
        /\ Raises err ∈ observed
    | None =>
        no_job_in run.1
        /\ Forall (fun o => o = Raises PytradfriError) observed
    end in
  spec (TradfriGroup._async_start_observe group observed exc)
  /\ spec (TradfriLight._async_start_observe light observed exc).
Proof.
  intros spec. split.
  - rewrite (observe_group_light_agree group
               {| TradfriLight._name := TradfriGroup._name group;
                  TradfriLight._light_data :=
                    TradfriLight._light_data light |}
               observed eq_refl exc).
    pose proof (light_observe_job
                  {| TradfriLight._name := TradfriGroup._name group;
                     TradfriLight._light_data :=
                       TradfriLight._light_data light |}
                  observed exc) as Hjob.
    unfold spec. now destruct (TradfriLight._async_start_observe _ _ _).
  - pose proof (light_observe_job light observed exc) as Hjob.
    unfold spec. now destruct (TradfriLight._async_start_observe _ _ _).
Qed.

(** X7: entered through the error callback, that is with an exception as
    argument, the loop of either adapter writes one warning that names
    the entity and then does what a first call does: the exception is not
    raised again and costs no call of [observe]. *)
Theorem observe_error_callback
    (group : TradfriGroup.t) (light : TradfriLight.t)
    (observed : list (outcome Cmd)) (exc : exn) :
  TradfriGroup._async_start_observe group observed (Some exc)
  = (let '(trace, result) :=
       TradfriGroup._async_start_observe group observed None in
     (Warning ("Observation failed for " +:+ TradfriGroup._name group)
        :: trace, result))
  /\ TradfriLight._async_start_observe light observed (Some exc)
     = (let '(trace, result) :=
          TradfriLight._async_start_observe light observed None in
        (Warning ("Observation failed for " +:+ TradfriLight._name light)
           :: trace, result)).
Proof.
  now rewrite group_observe_exc, light_observe_exc.
Qed.

End observe_more.

Lemma observe_group_light_agree_witness :
  TradfriGroup._async_start_observe (Cmd := nat)
    {| TradfriGroup._name := "lamp" |}
    [Raises PytradfriError; Returns 7%nat] None
  = TradfriLight._async_start_observe TradfriLight.color_light
      [Raises PytradfriError; Returns 7%nat] None.
Proof.
  apply (observe_group_light_agree
           {| TradfriGroup._name := "lamp" |} TradfriLight.color_light).
  reflexivity.
Defined.

(** * Further properties of the light adapter *)

(** X8: no call of a light's [async_turn_on] returns: each one raises, at
    the latest at the test of the XY colour, whose option name the module
    does not bind.  What a call has handed over by then is nothing, or
    what the [yield from] of the one [set_rgb_color] command of the HS
    branch hands over; with [yield from] read as [await] that is at most
    this one command.  No call sends [set_kelvin_color], [set_xy_color],
    [set_color_temp], [set_dimmer] or [set_state]. *)
Theorem light_turn_on_never_returns
    (U : ColorUtil) (yield_from : command -> M unit)
    (self : TradfriLight.t) (kwargs : gmap string value) :
  (exists e, (TradfriLight.async_turn_on yield_from self kwargs).2 = Raises e)
  /\ ((TradfriLight.async_turn_on yield_from self kwargs).1 = []
      \/ exists rgb,
           (TradfriLight.async_turn_on yield_from self kwargs).1
           = (yield_from (Call set_rgb_color rgb ∅)).1)
  /\ ((TradfriLight.async_turn_on api self kwargs).1 = []
      \/ exists rgb,
           (TradfriLight.async_turn_on api self kwargs).1
           = [Call set_rgb_color rgb ∅]).
Proof.
  destruct (light_turn_on_shape yield_from self kwargs) as [Hraises Hsent].
  destruct (light_turn_on_shape api self kwargs) as [_ Hapi].
  split; [exact Hraises|]. split; [exact Hsent|exact Hapi].
Qed.

(** X10: a group hands a brightness of [None] to [set_dimmer]: the call
    with [brightness=None] sends [set_dimmer(None)] with the transition
    time, not [set_state(1)]. *)
Theorem group_turn_on_brightness_None (kwargs : gmap string value) :
  TradfriGroup.async_turn_on (<[ATTR_BRIGHTNESS := VNone]> kwargs)
  = match transition_params kwargs with
    | Returns keys => ([Call set_dimmer [VNone] keys], Returns tt)
    | Raises e => ([], Raises e)
    end.
Proof.
  rewrite group_turn_on_run. unfold transition_params.
  rewrite lookup_insert_eq. now rewrite lookup_insert_ne by done.
Qed.

(** X11: a light whose data has no hex colour is sent nothing, whatever
    is asked: the first conditional is passed over, and the call raises
    the exception of the conversion of the transition time, or else
    [NameError]. *)
Theorem turn_on_without_hex_color
    (U : ColorUtil) (yield_from : command -> M unit)
    (self : TradfriLight.t) (kwargs : gmap string value) :
  TradfriLight.hex_color (TradfriLight._light_data self) = None ->
  TradfriLight.async_turn_on yield_from self kwargs
  = ([], Raises match transition_params kwargs with
                | Raises e => e
                | Returns _ => NameError
                end).
Proof.
  intros Hhex. rewrite light_turn_on_run.
  pose proof (first_color_command_run yield_from self kwargs) as Hfirst.
  cbv zeta in Hfirst. rewrite Hhex in Hfirst.
  now destruct (kwargs !! ATTR_HS_COLOR), (kwargs !! ATTR_COLOR_TEMP);
    rewrite Hfirst.
Qed.

Lemma turn_on_without_hex_color_witness :
  TradfriLight.hex_color (TradfriLight._light_data white_light)
  = None
  /\ @TradfriLight.async_turn_on fixed_color_util api white_light
       {[ATTR_HS_COLOR := VTuple [VFloat 10; VFloat 50]]}
     = ([], Raises NameError).
Proof.
  split; [reflexivity|].
  rewrite (turn_on_without_hex_color fixed_color_util api white_light
             {[ATTR_HS_COLOR := VTuple [VFloat 10; VFloat 50]]} eq_refl).
  reflexivity.
Defined.

(** * Further properties of the colour conversions *)

Lemma all_from_spec (f : Z -> bool) (d : nat) :
  forall base, all_from f d base = true ->
  forall n, base <= n < base + 2 ^ Z.of_nat d -> f n = true.
Proof.
  induction d as [|d IH]; intros base Hall n Hn.
  - simpl in Hn. now replace n with base by lia.
  - simpl in Hall. apply andb_prop in Hall as [Hlow Hhigh].
    rewrite Nat2Z.inj_succ, Z.pow_succ_r in Hn by lia.
    destruct (Z_lt_ge_dec n (base + 2 ^ Z.of_nat d)).
    + apply (IH base Hlow). lia.
    + apply (IH _ Hhigh). lia.
Qed.

(** Every value of the device scale passes the check. *)
Lemma device_values_checked : all_from device_value_check 16 0 = true.
Proof. vm_compute. reflexivity. Qed.

Lemma device_value_facts (n : Z) :
  0 <= n <= 65535 ->
  exists q : float,
    int_truediv n 65535 = Returns q
    /\ int_of_float (q * 65535 + 0.56) = Returns n
    /\ int_of_float ((q - 0.56) * 65535 + 0.56)
       = Returns (if n <? 36700 then n - 36699 else n - 36700)
    /\ (-0.56 <=? q - 0.56)%float = true
    /\ (q - 0.56 <=? 0.44)%float = true.
Proof.
  intros Hn.
  pose proof (all_from_spec _ _ _ device_values_checked n) as Hcheck.
  specialize (Hcheck ltac:(simpl; lia)). unfold device_value_check in Hcheck.
  destruct (int_truediv n 65535) as [q|]; [|discriminate].
  exists q. cbv zeta in Hcheck.
  destruct (int_of_float (q * 65535 + 0.56)) as [back|]; [|discriminate].
  destruct (int_of_float ((q - 0.56) * 65535 + 0.56)) as [shifted|];
    [|discriminate].
  apply andb_prop in Hcheck as [Hcheck Hhigh].
  apply andb_prop in Hcheck as [Hcheck Hlow].
  apply andb_prop in Hcheck as [Hback Hshifted].
  apply Z.eqb_eq in Hback, Hshifted. subst. auto.
Qed.

Lemma normalize_xy_floats (x y : float) (brightness : value) :
  normalize_xy (VFloat x) (VFloat y) brightness
  = (nx ← int_of_float (x * 65535 + 0.56);
     ny ← int_of_float (y * 65535 + 0.56);
     Returns (nx, ny)).
Proof. reflexivity. Qed.

Lemma denormalize_xy_ints (nx ny : Z) (brightness : value) :
  denormalize_xy (VInt nx) (VInt ny) brightness
  = (x ← int_truediv nx 65535;
     y ← int_truediv ny 65535;
     Returns (VFloat (x - 0.56), VFloat (y - 0.56))).
Proof.
  unfold denormalize_xy. simpl.
  now destruct (int_truediv nx 65535), (int_truediv ny 65535).
Qed.

(** X21: [normalize_xy] gives back every pair of device values from
    their quotients by 65535: for [nx] and [ny] from 0 to 65535,
    [normalize_xy(nx / 65535, ny / 65535)] is [(nx, ny)]. *)
Theorem normalize_xy_of_quotients (nx ny : Z) :
  0 <= nx <= 65535 -> 0 <= ny <= 65535 ->
  exists x y : float,
    int_truediv nx 65535 = Returns x
    /\ int_truediv ny 65535 = Returns y
    /\ normalize_xy (VFloat x) (VFloat y) VNone = Returns (nx, ny).
Proof.
  intros Hx Hy.
  destruct (device_value_facts nx Hx) as (x & Hqx & Hbx & _).
  destruct (device_value_facts ny Hy) as (y & Hqy & Hby & _).
  exists x, y. rewrite normalize_xy_floats, Hbx, Hby. auto.
Qed.

(** X22: on device values, [denormalize_xy] returns a pair of floats
    between -0.56 and 0.44: it never returns a coordinate of the upper
    part of the unit interval. *)
Theorem denormalize_xy_range (nx ny : Z) (brightness : value) :
  0 <= nx <= 65535 -> 0 <= ny <= 65535 ->
  exists x y : float,
    denormalize_xy (VInt nx) (VInt ny) brightness
    = Returns (VFloat x, VFloat y)
    /\ (-0.56 <=? x)%float = true /\ (x <=? 0.44)%float = true
    /\ (-0.56 <=? y)%float = true /\ (y <=? 0.44)%float = true.
Proof.
  intros Hx Hy.
  destruct (device_value_facts nx Hx) as (x & Hqx & _ & _ & Hlx & Hhx).
  destruct (device_value_facts ny Hy) as (y & Hqy & _ & _ & Hly & Hhy).
  exists (x - 0.56)%float, (y - 0.56)%float.
  rewrite denormalize_xy_ints, Hqx, Hqy. auto.
Qed.

(** X23: on device values, [denormalize_xy] followed by [normalize_xy]
    never gives the pair back: each value comes back lowered by 36699
    when it is below 36700, and by 36700 otherwise. *)
Theorem normalize_denormalize_shift (nx ny : Z) :
  0 <= nx <= 65535 -> 0 <= ny <= 65535 ->
  let shift n := if n <? 36700 then n - 36699 else n - 36700 in
  (xy ← denormalize_xy (VInt nx) (VInt ny) VNone;
   normalize_xy xy.1 xy.2 VNone)
  = Returns (shift nx, shift ny)
  /\ shift nx <> nx /\ shift ny <> ny.
Proof.
  intros Hx Hy shift.
  destruct (device_value_facts nx Hx) as (x & Hqx & _ & Hsx & _).
  destruct (device_value_facts ny Hy) as (y & Hqy & _ & Hsy & _).
  rewrite denormalize_xy_ints, Hqx, Hqy. split.
  - change (normalize_xy (VFloat (x - 0.56)) (VFloat (y - 0.56)) VNone
            = Returns (shift nx, shift ny)).
    now rewrite normalize_xy_floats, Hsx, Hsy.
  - subst shift. simpl.
    destruct (nx <? 36700), (ny <? 36700); lia.
Qed.

Lemma normalize_xy_of_quotients_witness :
  0 <= 19661 <= 65535 /\ 0 <= 65535 <= 65535
  /\ exists x y : float,
       int_truediv 19661 65535 = Returns x
       /\ int_truediv 65535 65535 = Returns y
       /\ normalize_xy (VFloat x) (VFloat y) VNone = Returns (19661, 65535).
Proof.
  split; [lia|]. split; [lia|].
  apply (normalize_xy_of_quotients 19661 65535); lia.
Defined.

Lemma denormalize_xy_range_witness :
  0 <= 19661 <= 65535 /\ 0 <= 65535 <= 65535
  /\ exists x y : float,
       denormalize_xy (VInt 19661) (VInt 65535) VNone
       = Returns (VFloat x, VFloat y)
       /\ (-0.56 <=? x)%float = true /\ (x <=? 0.44)%float = true
       /\ (-0.56 <=? y)%float = true /\ (y <=? 0.44)%float = true.
Proof.
  split; [lia|]. split; [lia|].
  apply (denormalize_xy_range 19661 65535 VNone); lia.
Defined.

Lemma normalize_denormalize_shift_witness :
  0 <= 19661 <= 65535 /\ 0 <= 65535 <= 65535
  /\ (xy ← denormalize_xy (VInt 19661) (VInt 65535) VNone;
      normalize_xy xy.1 xy.2 VNone)
     = Returns (-17038, 28835).
Proof.
  split; [lia|]. split; [lia|].
  apply (normalize_denormalize_shift 19661 65535); lia.
Defined.

(** * Properties of the cached state *)

Section entity_properties.
Context `{SupportFlags}.
Import LightEntity.

Lemma lor_land_absorb (a b : Z) : Z.lor a (Z.land b a) = a.
Proof.
  apply Z.bits_inj'. intros n _.
  rewrite Z.lor_spec, Z.land_spec.
  now destruct (Z.testbit a n), (Z.testbit b n).
Qed.

Lemma lor_keeps_flags (features flag kept : Z) :
  Z.land features kept = kept -> Z.land (Z.lor features flag) kept = kept.
Proof.
  intros Hkeep. rewrite Z.land_lor_distr_l, Hkeep. apply lor_land_absorb.
Qed.

Lemma refresh_features_keep (mireds color : bool) :
  let features := SUPPORTED_FEATURES in
  let features :=
    if mireds then Z.lor features SUPPORT_COLOR_TEMP else features in
  let features :=
    if color then Z.lor features SUPPORT_COLOR else features in
  Z.land features SUPPORTED_FEATURES = SUPPORTED_FEATURES.
Proof.
  destruct mireds, color; cbv zeta;
    auto using lor_keeps_flags, Z.land_diag.
Qed.

Lemma refresh_complete (self : t) (light : Handle.Device) :
  complete self -> complete (_refresh self light).1.
Proof.
  intros (Hl & Hc & Hd & Hn & Hhs & Hf). unfold _refresh.
  destruct (Handle.lights (Handle.light_control light) !! 0%nat);
    simpl; repeat split; eauto.
  apply refresh_features_keep.
Qed.

Lemma init_complete (light : Handle.Device) (self : t) :
  __init__ light = Returns self -> complete self.
Proof.
  unfold __init__, _refresh.
  destruct (Handle.lights (Handle.light_control light) !! 0%nat);
    simpl; [|discriminate].
  intros [= <-]. repeat split; simpl; eauto.
  apply refresh_features_keep.
Qed.

Lemma pushes_snoc (self : t) (devices : list Handle.Device)
    (device : Handle.Device) :
  pushes self (devices ++ [device])
  = let '(self1, notes1) := pushes self devices in
    let '(self2, notes2, _) := _observe_update self1 device in
    (self2, notes1 ++ notes2).
Proof.
  unfold pushes. rewrite fold_left_app. simpl.
  now destruct (fold_left _ devices (self, [])).
Qed.

Lemma observe_update_refresh (self : t) (device : Handle.Device) :
  (_observe_update self device).1.1 = (_refresh self device).1
  /\ (_observe_update self device).1.2
     = (if has_lights device then [ScheduleUpdate] else [])
  /\ (_observe_update self device).2 = (_refresh self device).2.
Proof.
  unfold _observe_update, _refresh, has_lights.
  now destruct (Handle.lights (Handle.light_control device)).
Qed.

(** X12: a push of a device that has a light replaces the whole cache:
    the cache after it is the same whatever it was before, the
    properties give the device's name and reachability and the state,
    brightness and colour temperature of its first light, [hs_color] is
    [None], and one state update is scheduled. *)
Theorem observe_update_replaces_cache
    (self other : t) (device : Handle.Device) (light_data : Handle.Light) :
  Handle.lights (Handle.light_control device) !! 0%nat = Some light_data ->
  let cache := (_observe_update self device).1.1 in
  _observe_update self device = (cache, [ScheduleUpdate], Returns tt)
  /\ (_observe_update other device).1.1 = cache
  /\ name cache = Some (Handle.name device)
  /\ available cache = Handle.reachable device
  /\ is_on cache = Returns (Handle.state light_data)
  /\ brightness cache = Returns (Handle.dimmer light_data)
  /\ color_temp cache = Returns (Handle.color_temp light_data)
  /\ min_mireds cache
     = Returns (Handle.min_mireds (Handle.light_control device))
  /\ max_mireds cache
     = Returns (Handle.max_mireds (Handle.light_control device))
  /\ hs_color cache = VNone.
Proof.
  intros Hlight. unfold _observe_update, _refresh. rewrite Hlight.
  simpl. repeat split.
Qed.

(** X13: a push of a device without lights raises [IndexError] and
    schedules nothing, but has already changed the cache: availability
    and the mired bounds are those of the new device, while name, state,
    brightness, colour temperature and features are still the old
    ones. *)
Theorem observe_update_without_lights
    (self : t) (device : Handle.Device) :
  Handle.lights (Handle.light_control device) = [] ->
  let cache := (_observe_update self device).1.1 in
  _observe_update self device = (cache, [], Raises IndexError)
  /\ available cache = Handle.reachable device
  /\ min_mireds cache
     = Returns (Handle.min_mireds (Handle.light_control device))
  /\ max_mireds cache
     = Returns (Handle.max_mireds (Handle.light_control device))
  /\ name cache = name self
  /\ is_on cache = is_on self
  /\ brightness cache = brightness self
  /\ color_temp cache = color_temp self
  /\ supported_features cache = supported_features self.
Proof.
  intros Hlights. unfold _observe_update, _refresh. rewrite Hlights.
  simpl. repeat split.
Qed.

Lemma pushes_complete (self : t) (devices : list Handle.Device) :
  complete self -> complete (pushes self devices).1.
Proof.
  intros Hself. induction devices as [|device devices IH] using rev_ind.
  - exact Hself.
  - rewrite pushes_snoc.
    destruct (pushes self devices) as [self1 notes1]. simpl in IH.
    pose proof (refresh_complete self1 device IH) as Hnext.
    destruct (observe_update_refresh self1 device) as (Hcache & _ & _).
    destruct (_observe_update self1 device) as [[self2 notes2] result].
    simpl in *. now rewrite Hcache.
Qed.

(** X14: once the constructor has returned, whatever devices are pushed
    afterwards, with lights or without, the properties [is_on],
    [brightness], [color_temp], [min_mireds] and [max_mireds] never fail
    on a missing attribute, the name is set, [hs_color] is [None] (the
    adapter never reports an HS colour), and the features contain those
    of [SUPPORTED_FEATURES]. *)
Theorem pushes_keep_properties
    (light : Handle.Device) (self : t) (devices : list Handle.Device) :
  __init__ light = Returns self ->
  let cache := (pushes self devices).1 in
  is_Returns (is_on cache)
  /\ is_Returns (brightness cache)
  /\ is_Returns (color_temp cache)
  /\ is_Returns (min_mireds cache)
  /\ is_Returns (max_mireds cache)
  /\ is_Some (name cache)
  /\ hs_color cache = VNone
  /\ Z.land (supported_features cache) SUPPORTED_FEATURES
     = SUPPORTED_FEATURES.
Proof.
  intros Hinit.
  destruct (pushes_complete self devices (init_complete light self Hinit))
    as (_ & [lc Hc] & [ld Hd] & Hn & Hhs & Hf).
  unfold is_on, brightness, color_temp, min_mireds, max_mireds,
    light_data_attribute, light_control_attribute.
  rewrite Hc, Hd. simpl. repeat split; assumption.
Qed.

(** X15: the pushes of a list of devices schedule one state update for
    each device that has a light, and none for the others. *)
Theorem pushes_notifications (self : t) (devices : list Handle.Device) :
  (pushes self devices).2
  = replicate (length (List.filter has_lights devices)) ScheduleUpdate.
Proof.
  induction devices as [|device devices IH] using rev_ind.
  - reflexivity.
  - rewrite pushes_snoc, List.filter_app, length_app, replicate_add.
    destruct (pushes self devices) as [self1 notes1]. simpl in IH.
    destruct (observe_update_refresh self1 device) as (_ & Hnotes & _).
    destruct (_observe_update self1 device) as [[self2 notes2] result].
    simpl in *. rewrite IH, Hnotes. now destruct (has_lights device).
Qed.

(** X16: the property [xy_color] is [None] when the light data has no XY
    colour or the light cannot set colours; for a light that can, and an
    XY colour of two device values from 0 to 65535, it is a pair of
    floats between -0.56 and 0.44, never a coordinate of the upper part
    of the unit interval. *)
Theorem xy_color_None_or_low (self : t)
    (light_data : Handle.Light) (light_control : Handle.LightControl) :
  _light_data self = Some light_data ->
  _light_control self = Some light_control ->
  (truthy (Handle.xy_color light_data) = false
   \/ Handle.can_set_color light_control = false ->
   xy_color self = Returns VNone)
  /\ (forall nx ny,
        Handle.xy_color light_data = VTuple [VInt nx; VInt ny] ->
        Handle.can_set_color light_control = true ->
        0 <= nx <= 65535 -> 0 <= ny <= 65535 ->
        exists x y : float,
          xy_color self = Returns (VTuple [VFloat x; VFloat y])
          /\ (-0.56 <=? x)%float = true /\ (x <=? 0.44)%float = true
          /\ (-0.56 <=? y)%float = true /\ (y <=? 0.44)%float = true).
Proof.
  intros Hd Hc. unfold xy_color. rewrite Hd, Hc. split.
  - intros [-> | ->]; [reflexivity|].
    now destruct (truthy (Handle.xy_color light_data)).
  - intros nx ny -> -> Hx Hy.
    destruct (denormalize_xy_range nx ny VNone Hx Hy)
      as (x & y & Hxy & Hbounds).
    exists x, y. split; [|exact Hbounds].
    simpl. unfold call_xy. simpl. now rewrite Hxy.
Qed.

End entity_properties.

(** * Properties of the group cache *)

Section group_entity_properties.
Import GroupEntity.

Lemma group_pushes_snoc (self : t) (groups : list Handle.Group)
    (group : Handle.Group) :
  pushes self (groups ++ [group])
  = (_refresh (pushes self groups).1 group,
     (pushes self groups).2 ++ [ScheduleUpdate]).
Proof.
  unfold pushes. rewrite fold_left_app. simpl.
  now destruct (fold_left _ groups (self, [])).
Qed.

(** X17: a group adapter always shows the group pushed last: after any
    pushes its name, state and brightness are those of the last group
    pushed, or of the group it was made from when nothing was pushed,
    and one state update has been scheduled for each push. *)
Theorem group_pushes_latest
    (made_from : Handle.Group) (groups : list Handle.Group) :
  let run := pushes (__init__ made_from) groups in
  let latest := default made_from (last groups) in
  name run.1 = Handle.group_name latest
  /\ is_on run.1 = Handle.group_state latest
  /\ brightness run.1 = Handle.group_dimmer latest
  /\ run.2 = replicate (length groups) ScheduleUpdate.
Proof.
  induction groups as [|group groups IH] using rev_ind.
  - repeat split.
  - cbv zeta in *. rewrite group_pushes_snoc, last_snoc. simpl.
    destruct IH as (_ & _ & _ & ->). repeat split.
    rewrite length_app, replicate_add. reflexivity.
Qed.

End group_entity_properties.

(** * Properties of the platform setup *)

Section platform_properties.
Import Platform.

Lemma elem_of_add_if_any {A} (add : list A -> event) (entities : list A)
    (e : event) :
  e ∈ add_if_any add entities <-> e = add entities /\ entities <> [].
Proof.
  destruct entities as [|x entities]; simpl.
  - split; [intros Hin; inversion Hin|now intros [_ ?]].
  - rewrite list_elem_of_singleton. split; [now intros ->|now intros [-> _]].
Qed.

(** X18: without discovery information the setup does nothing and
    returns; with a gateway id that is missing from the discovery
    information or from the tables [KEY_API] or [KEY_GATEWAY] it raises
    [KeyError] before any request is made. *)
Theorem setup_unknown_gateway
    (hass : HassData) (discovery_info : gmap string string) :
  async_setup_platform hass None = ([], Returns tt)
  /\ (match discovery_info !! "gateway" with
      | None => True
      | Some gateway_id =>
          KEY_API hass !! gateway_id = None
          \/ KEY_GATEWAY hass !! gateway_id = None
      end ->
      async_setup_platform hass (Some discovery_info)
      = ([], Raises KeyError)).
Proof.
  split; [reflexivity|]. unfold async_setup_platform.
  destruct (discovery_info !! "gateway") as [gateway_id|]; [|reflexivity].
  intros [-> | ->]; [reflexivity|].
  now destruct (KEY_API hass !! gateway_id).
Qed.

(** The run of the setup for a known gateway. *)
Lemma setup_known_gateway
    (hass : HassData) (discovery_info : gmap string string)
    (gateway_id : string) (gateway : Gateway) :
  discovery_info !! "gateway" = Some gateway_id ->
  KEY_API hass !! gateway_id = Some tt ->
  KEY_GATEWAY hass !! gateway_id = Some gateway ->
  async_setup_platform hass (Some discovery_info)
  = let about_lights :=
      [Api_devices_command; Api_devices_commands]
        ++ add_if_any AddLights
             (List.filter Handle.has_light_control (get_devices gateway)) in
    match KEY_TRADFRI_GROUPS hass !! gateway_id with
    | None => (about_lights, Raises KeyError)
    | Some allow_tradfri_groups =>
        if truthy allow_tradfri_groups then
          (about_lights
             ++ [Api_groups_command; Api_groups_commands]
             ++ add_if_any AddGroups (get_groups gateway), Returns tt)
        else (about_lights, Returns tt)
    end.
Proof.
  intros Hid Hapi Hgw. unfold async_setup_platform.
  now rewrite Hid, Hapi, Hgw.
Qed.

Ltac setup_cases hass gateway_id gateway Hid Hapi Hgw :=
  rewrite (setup_known_gateway hass _ gateway_id gateway Hid Hapi Hgw);
  cbv zeta;
  destruct (KEY_TRADFRI_GROUPS hass !! gateway_id) as [allow|];
  [destruct (truthy allow) eqn:Hallow|];
  destruct (List.filter Handle.has_light_control (get_devices gateway))
    as [|light lights];
  destruct (get_groups gateway) as [|group groups]; simpl.

Ltac in_trace :=
  rewrite ?elem_of_cons, ?elem_of_nil;
  intuition (try discriminate; try congruence; eauto).

(** X19: for a known gateway the setup first makes the two requests for
    the devices, and then adds, in one call and in the gateway's order,
    exactly the devices that have a light control; it makes no call to
    add lights when there is none.  This holds whether or not the groups
    are set up afterwards, also when the lookup of the groups setting
    raises. *)
Theorem setup_adds_lights
    (hass : HassData) (discovery_info : gmap string string)
    (gateway_id : string) (gateway : Gateway) :
  discovery_info !! "gateway" = Some gateway_id ->
  KEY_API hass !! gateway_id = Some tt ->
  KEY_GATEWAY hass !! gateway_id = Some gateway ->
  let trace := (async_setup_platform hass (Some discovery_info)).1 in
  let lights := List.filter Handle.has_light_control (get_devices gateway) in
  (exists rest,
     trace = [Api_devices_command; Api_devices_commands] ++ rest
     /\ (Api_devices_command ∉ rest) /\ (Api_devices_commands ∉ rest))
  /\ (forall added, AddLights added ∈ trace <->
                    added = lights /\ lights <> [])
  /\ (length (List.filter
                (fun e => match e with AddLights _ => true | _ => false end)
                trace) <= 1)%nat.
Proof.
  intros Hid Hapi Hgw trace lights. subst trace lights.
  setup_cases hass gateway_id gateway Hid Hapi Hgw;
    (split; [eexists; split; [reflexivity|split; in_trace]
            |split; [intros added; in_trace|lia]]).
Qed.

(** X20: for a known gateway, nothing about groups is requested or added
    unless the gateway's entry of [KEY_TRADFRI_GROUPS] is true; if it is,
    the two requests for the groups are made and the groups, unless there
    is none, are added in one call, all after the lights. *)
Theorem setup_adds_groups
    (hass : HassData) (discovery_info : gmap string string)
    (gateway_id : string) (gateway : Gateway) :
  discovery_info !! "gateway" = Some gateway_id ->
  KEY_API hass !! gateway_id = Some tt ->
  KEY_GATEWAY hass !! gateway_id = Some gateway ->
  let run := async_setup_platform hass (Some discovery_info) in
  let allowed :=
    exists allow,
      KEY_TRADFRI_GROUPS hass !! gateway_id = Some allow
      /\ truthy allow = true in
  (Api_groups_command ∈ run.1 <-> allowed)
  /\ (Api_groups_commands ∈ run.1 <-> allowed)
  /\ (forall added, AddGroups added ∈ run.1 <->
                    allowed /\ added = get_groups gateway /\ added <> [])
  /\ (allowed ->
      exists about_lights about_groups,
        run.1 = about_lights ++ Api_groups_command :: about_groups
        /\ Forall (fun e => match e with
                            | Api_devices_command | Api_devices_commands
                            | AddLights _ => True
                            | _ => False
                            end) about_lights
        /\ Forall (fun e => match e with
                            | Api_groups_commands | AddGroups _ => True
                            | _ => False
                            end) about_groups).
Proof.
  intros Hid Hapi Hgw run allowed. subst run allowed.
  setup_cases hass gateway_id gateway Hid Hapi Hgw.
  all: repeat match goal with |- _ /\ _ => split end.
  all: try match goal with |- forall _ : list _, _ => intros added end.
  all: try solve
    [ in_trace
    | split; [intros Hin|intros (allow' & [= <-] & ?)];
      [exfalso; revert Hin; in_trace|congruence]
    | split; [intros Hin|intros ((allow' & [= <-] & ?) & _)];
      [exfalso; revert Hin; in_trace|congruence]
    | split; [intros Hin|intros (allow' & [= ] & _)];
      exfalso; revert Hin; in_trace
    | split; [intros Hin|intros ((allow' & [= ] & _) & _)];
      exfalso; revert Hin; in_trace
    | intros (allow' & [= ] & _) ].
  all: try solve
    [ intros (allow' & Heq & Htrue);
      first [discriminate Heq|injection Heq as <-; congruence] ].
  all: intros _.
  all: first
    [ exists [Api_devices_command; Api_devices_commands]; eexists;
      split; [reflexivity|split; repeat constructor]
    | exists [Api_devices_command; Api_devices_commands;
              AddLights (light :: lights)]; eexists;
      split; [reflexivity|split; repeat constructor] ].
Qed.

End platform_properties.

(** * The further properties on sample inputs *)

Lemma observe_update_replaces_cache_witness :
  Handle.lights (Handle.light_control bulb) !! 0%nat
  = Some {| Handle.state := VBool true;
            Handle.dimmer := VInt 200;
            Handle.color_temp := VInt 300;
            Handle.hex_color := Some "f5faf6";
            Handle.xy_color := VTuple [VInt 19661; VInt 19661] |}
  /\ LightEntity.brightness
       (@LightEntity._observe_update sample_flags
          (@LightEntity.blank sample_flags) bulb).1.1
     = Returns (VInt 200).
Proof.
  split; [reflexivity|].
  apply (@observe_update_replaces_cache sample_flags
           (@LightEntity.blank sample_flags)
           (@LightEntity.blank sample_flags) bulb _ eq_refl).
Defined.

Lemma observe_update_without_lights_witness :
  Handle.lights (Handle.light_control remote) = []
  /\ LightEntity.available
       (@LightEntity._observe_update sample_flags
          (@LightEntity._refresh sample_flags
             (@LightEntity.blank sample_flags) bulb).1 remote).1.1
     = false
  /\ LightEntity.brightness
       (@LightEntity._observe_update sample_flags
          (@LightEntity._refresh sample_flags
             (@LightEntity.blank sample_flags) bulb).1 remote).1.1
     = Returns (VInt 200).
Proof.
  split; [reflexivity|].
  destruct (@observe_update_without_lights sample_flags
              (@LightEntity._refresh sample_flags
                 (@LightEntity.blank sample_flags) bulb).1 remote eq_refl)
    as (_ & Havailable & _ & _ & _ & _ & Hbrightness & _).
  split; [exact Havailable|]. rewrite Hbrightness. reflexivity.
Defined.

Lemma pushes_keep_properties_witness :
  @LightEntity.__init__ sample_flags bulb
  = Returns (@LightEntity._refresh sample_flags
               (@LightEntity.blank sample_flags) bulb).1
  /\ is_Returns
       (LightEntity.is_on
          (@LightEntity.pushes sample_flags
             (@LightEntity._refresh sample_flags
                (@LightEntity.blank sample_flags) bulb).1
             [remote; bulb; remote]).1)
  /\ LightEntity.hs_color
       (@LightEntity.pushes sample_flags
          (@LightEntity._refresh sample_flags
             (@LightEntity.blank sample_flags) bulb).1
          [remote; bulb; remote]).1 = VNone.
Proof.
  assert (@LightEntity.__init__ sample_flags bulb
          = Returns (@LightEntity._refresh sample_flags
                       (@LightEntity.blank sample_flags) bulb).1) as Hinit
    by reflexivity.
  split; [exact Hinit|].
  destruct (@pushes_keep_properties sample_flags bulb _
              [remote; bulb; remote] Hinit)
    as (Hon & _ & _ & _ & _ & _ & Hhs & _).
  split; [exact Hon|exact Hhs].
Defined.

Lemma xy_color_None_or_low_witness :
  (exists x y : float,
     LightEntity.xy_color
       (@LightEntity._refresh sample_flags
          (@LightEntity.blank sample_flags) bulb).1
     = Returns (VTuple [VFloat x; VFloat y])
     /\ (-0.56 <=? x)%float = true /\ (x <=? 0.44)%float = true
     /\ (-0.56 <=? y)%float = true /\ (y <=? 0.44)%float = true)
  /\ LightEntity.xy_color
       (@LightEntity._observe_update sample_flags
          (@LightEntity._refresh sample_flags
             (@LightEntity.blank sample_flags) bulb).1 remote).1.1
     = Returns VNone.
Proof.
  split.
  - apply (proj2 (@xy_color_None_or_low
                    (@LightEntity._refresh sample_flags
                       (@LightEntity.blank sample_flags) bulb).1
                    {| Handle.state := VBool true;
                       Handle.dimmer := VInt 200;
                       Handle.color_temp := VInt 300;
                       Handle.hex_color := Some "f5faf6";
                       Handle.xy_color :=
                         VTuple [VInt 19661; VInt 19661] |}
                    (Handle.light_control bulb)
                    eq_refl eq_refl) 19661 19661 eq_refl eq_refl);
      split; discriminate.
  - apply (@xy_color_None_or_low
             (@LightEntity._observe_update sample_flags
                (@LightEntity._refresh sample_flags
                   (@LightEntity.blank sample_flags) bulb).1 remote).1.1
             {| Handle.state := VBool true;
                Handle.dimmer := VInt 200;
                Handle.color_temp := VInt 300;
                Handle.hex_color := Some "f5faf6";
                Handle.xy_color := VTuple [VInt 19661; VInt 19661] |}
             (Handle.light_control remote) eq_refl eq_refl).
    right. reflexivity.
Defined.

Lemma setup_unknown_gateway_witness :
  Platform.async_setup_platform sample_hass (Some {["gateway" := "other"]})
  = ([], Raises KeyError).
Proof.
  apply (setup_unknown_gateway sample_hass {["gateway" := "other"]}).
  vm_compute. left. reflexivity.
Defined.

Lemma setup_adds_lights_witness :
  sample_discovery !! "gateway" = Some "gw"
  /\ Platform.KEY_API sample_hass !! "gw" = Some tt
  /\ Platform.KEY_GATEWAY sample_hass !! "gw" = Some sample_gateway
  /\ Platform.AddLights [bulb]
     ∈ (Platform.async_setup_platform sample_hass (Some sample_discovery)).1.
Proof.
  assert (sample_discovery !! "gateway" = Some "gw") as Hid by reflexivity.
  assert (Platform.KEY_API sample_hass !! "gw" = Some tt) as Hapi
    by reflexivity.
  assert (Platform.KEY_GATEWAY sample_hass !! "gw" = Some sample_gateway)
    as Hgw by reflexivity.
  repeat (split; [assumption|]).
  apply (setup_adds_lights sample_hass sample_discovery "gw"
           sample_gateway Hid Hapi Hgw).
  split; [reflexivity|discriminate].
Defined.

Lemma setup_adds_groups_witness :
  sample_discovery !! "gateway" = Some "gw"
  /\ Platform.KEY_API sample_hass !! "gw" = Some tt
  /\ Platform.KEY_GATEWAY sample_hass !! "gw" = Some sample_gateway
  /\ Platform.Api_groups_command
     ∈ (Platform.async_setup_platform sample_hass (Some sample_discovery)).1.
Proof.
  assert (sample_discovery !! "gateway" = Some "gw") as Hid by reflexivity.
  assert (Platform.KEY_API sample_hass !! "gw" = Some tt) as Hapi
    by reflexivity.
  assert (Platform.KEY_GATEWAY sample_hass !! "gw" = Some sample_gateway)
    as Hgw by reflexivity.
  repeat (split; [assumption|]).
  destruct (setup_adds_groups sample_hass sample_discovery "gw"
              sample_gateway Hid Hapi Hgw)
    as (Hrequest & _ & _ & _).
  apply Hrequest. exists (VBool true). split; reflexivity.
Defined.

(** * Transition times *)

Lemma digits2_pos_bound (m : positive) :
  Z.pos m < 2 ^ Z.pos (digits2_pos m).
Proof.
  induction m as [m IH|m IH|]; simpl digits2_pos.
  - rewrite Pos2Z.inj_succ, Z.pow_succ_r by lia. lia.
  - rewrite Pos2Z.inj_succ, Z.pow_succ_r by lia. lia.
  - reflexivity.
Qed.

(** [int] of a float from 0 up to, but without, 1 is 0. *)
Lemma int_of_float_below_one (f : float) :
  (0 <=? f)%float = true -> (f <? 1)%float = true ->
  int_of_float f = Returns 0.
Proof.
  rewrite leb_spec, ltb_spec. intros Hle Hlt.
  pose proof (Prim2SF_valid f) as Hvalid.
  unfold int_of_float.
  change (Prim2SF 0) with (S754_zero false) in Hle.
  change (Prim2SF 1) with (S754_finite false 4503599627370496 (-52)) in Hlt.
  destruct (Prim2SF f) as [s|s| |s m e];
    [ reflexivity
    | destruct s; [now vm_compute in Hle|now vm_compute in Hlt]
    | now vm_compute in Hle
    | ].
  destruct s; [now vm_compute in Hle|].
  unfold SFltb, SFcompare in Hlt.
  simpl in Hvalid. unfold bounded, canonical_mantissa in Hvalid.
  apply andb_prop in Hvalid as [Hcanon _].
  apply Z.eqb_eq in Hcanon.
  unfold fexp, SpecFloat.emin, prec, emax in Hcanon.
  pose proof (digits2_pos_bound m) as Hdigits.
  assert (e <= -52 /\ Z.pos m < 2 ^ (- e)) as [He Hm].
  { destruct (Z.compare_spec e (-52)) as [-> | He | He];
      [|split; [lia|]|discriminate].
    - split; [lia|].
      destruct (PosDef.Pos.compare_cont Eq m 4503599627370496) eqn:Hc;
        try discriminate.
      apply (proj1 (Pos.compare_lt_iff m 4503599627370496)) in Hc.
      replace (- -52) with 52 by reflexivity.
      replace (2 ^ 52) with 4503599627370496 by reflexivity.
      exact Hc.
    - eapply Z.lt_le_trans; [exact Hdigits|].
      apply Z.pow_le_mono_r; clear - He Hcanon; lia. }
  clear - He Hm.
  assert ((0 <=? e) = false) as -> by lia.
  rewrite Z.shiftr_div_pow2 by lia.
  rewrite Z.div_small; [reflexivity|lia].
Qed.

(** X24: a transition shorter than one second is sent as no transition
    at all: the duration is truncated to whole seconds before it is
    multiplied by 10, so that a float duration from 0 up to, but
    without, 1 gives [transition_time=0]. *)
Theorem transition_below_one_second
    (kwargs : gmap string value) (f : float) :
  kwargs !! ATTR_TRANSITION = Some (VFloat f) ->
  (0 <=? f)%float = true -> (f <? 1)%float = true ->
  transition_params kwargs = Returns {[ATTR_TRANSITION_TIME := VInt 0]}.
Proof.
  intros Ht Hle Hlt. unfold transition_params. rewrite Ht. simpl.
  now rewrite (int_of_float_below_one f Hle Hlt).
Qed.

Lemma transition_below_one_second_witness :
  short_transition !! ATTR_TRANSITION = Some (VFloat 0.9)
  /\ (0 <=? 0.9)%float = true /\ (0.9 <? 1)%float = true
  /\ transition_params short_transition
     = Returns {[ATTR_TRANSITION_TIME := VInt 0]}.
Proof.
  assert (short_transition !! ATTR_TRANSITION = Some (VFloat 0.9)) as Ht
    by reflexivity.
  split; [exact Ht|]. split; [reflexivity|]. split; [reflexivity|].
  apply (transition_below_one_second short_transition 0.9 Ht);
    reflexivity.
Defined.
